(** * Daily-report normaliser: header detection, number parsing and row emission

    A shallow embedding of the two scripts of the repository,
    [backup_normalize_daily_reports.py] (module [Backup]) and
    [normalize_daily_reports.py] (module [Normalize]), followed by the
    properties of the header locator, the number parser, the row
    classifier/emitter and the aggregator.

    Python values are modelled as follows.
    - [str] is a list of Unicode code points ([pystr]).
    - A grid cell is one of the objects pandas hands back with
      [dtype=object]: [None], a float NaN, a float, an int, a string, or a
      date/datetime/Timestamp ([cell]).
    - A DataFrame read with [header=None] is a list of rows, each a list of
      cells; [row.iloc[c]] out of range raises [IndexError].
    - Exceptions are values of [exn], threaded by the [result] monad.
    - What lives outside the repository is an interface: Unicode case
      mapping, [float()], float division, [pd.to_datetime] and [Timestamp]
      are [Runtime], [pathlib] and the file readers are [FileSystem].
      Nothing is assumed about them except where a theorem names the laws
      [RuntimeLaws] or states a hypothesis about [float()].
    - [Sample] is one such runtime, small enough to run the model on the
      grids of the examples. *)

From Stdlib Require Import ZArith NArith Ascii String DecimalString.
From stdpp Require Import base tactics option list gmap.

Local Open Scope Z_scope.

(** ** Python strings *)

Definition pystr := list N.

(** A literal: the code points of an ASCII string. *)
Definition py (s : string) : pystr :=
  map N_of_ascii (list_ascii_of_string s).

(** [str.isspace] on one code point: the Unicode white-space set that
    [str.strip()] and the regular expression class [\s] use. *)
Definition is_space (c : N) : bool :=
  ((9 <=? c) && (c <=? 13) || (28 <=? c) && (c <=? 32)
   || (c =? 133) || (c =? 160) || (c =? 5760)
   || (8192 <=? c) && (c <=? 8202)
   || (c =? 8232) || (c =? 8233) || (c =? 8239) || (c =? 8287)
   || (c =? 12288))%N.

Fixpoint lstrip (s : pystr) : pystr :=
  match s with
  | [] => []
  | c :: s' => if is_space c then lstrip s' else s
  end.

Definition rstrip (s : pystr) : pystr := reverse (lstrip (reverse s)).

(** [s.strip()] *)
Definition strip (s : pystr) : pystr := rstrip (lstrip s).

(** [s.endswith(c)] for a one-character suffix. *)
Definition endswith (s : pystr) (c : N) : bool :=
  match last s with
  | Some x => (x =? c)%N
  | None => false
  end.

(** [s[:-1]] *)
Definition drop_last (s : pystr) : pystr := removelast s.

(** [s.replace(c, r)] for a one-character pattern [c]. *)
Definition replace (c : N) (r : pystr) (s : pystr) : pystr :=
  flat_map (fun x => if (x =? c)%N then r else [x]) s.

Definition pystr_eqb (a b : pystr) : bool := bool_decide (a = b).

(** [x in {a, b, ...}] for a set of string literals. *)
Definition str_in (x : pystr) (xs : list pystr) : bool :=
  existsb (pystr_eqb x) xs.

Definition PERCENT : N := 37.
Definition NBSP : N := 160.
Definition SPACE : N := 32.
Definition COMMA : N := 44.
Definition PERIOD : N := 46.

(** Case mapping of the ASCII letters; other code points stay. *)
Definition ascii_upper (c : N) : N :=
  if ((97 <=? c) && (c <=? 122))%N then (c - 32)%N else c.
Definition ascii_lower (c : N) : N :=
  if ((65 <=? c) && (c <=? 90))%N then (c + 32)%N else c.
Definition is_ascii (c : N) : bool := (c <? 128)%N.

(** [str(n)] for an int. *)
Definition str_of_int (z : Z) : pystr :=
  py (NilEmpty.string_of_int (Z.to_int z)).

(** ** Exceptions *)

(** The exceptions the scripts can end with: the [ValueError] for an
    unsupported suffix, the [RuntimeError] for a grid without date header,
    [IndexError] from positional access, the exit of [argparse] on a bad
    command line, the two [ValueError]s of [pd.concat], and whatever the
    file readers raise. *)
Inductive exn :=
| UnsupportedFormat (suffix : pystr)
| HeaderNotFound (name : pystr)
| IndexError
| UsageError
| NoObjectsToConcatenate
| AllObjectsNone
| ReadError.

Inductive result (A : Type) :=
| Ok (a : A)
| Raise (e : exn).
Arguments Ok {A} a.
Arguments Raise {A} e.

#[global] Instance result_ret : MRet result := fun A a => Ok a.
#[global] Instance result_bind : MBind result := fun A B k m =>
  match m with
  | Ok a => k a
  | Raise e => Raise e
  end.

(** ** The runtime outside the repository *)

Class Runtime := {
  (** Python floats: [float(s)] ([None] for [ValueError]), [float(n)] on an
      int, [v / 100.0], [str(v)]. *)
  float : Type;
  float_of_str : pystr -> option float;
  float_of_int : Z -> float;
  float_div100 : float -> float;
  float_str : float -> pystr;
  (** [str.upper], [str.lower]: Unicode case mapping. *)
  str_upper : pystr -> pystr;
  str_lower : pystr -> pystr;
  (** [\d] of the [re] module: Unicode decimal digits. *)
  is_digit : N -> bool;
  (** pandas: a valid (non-NaT) [Timestamp]; [pd.to_datetime(s,
      dayfirst=b, errors="coerce")] with [None] for [NaT]; [.year];
      [.normalize()]; [str(ts)]. *)
  Timestamp : Type;
  to_datetime : bool -> pystr -> option Timestamp;
  ts_year : Timestamp -> Z;
  ts_normalize : Timestamp -> Timestamp;
  ts_str : Timestamp -> pystr;
}.

(** Three facts about Unicode case mapping that the number parser and the
    header locator rely on. *)
Class RuntimeLaws (R : Runtime) : Prop := {
  (** on ASCII text, lower-casing is the ASCII one *)
  lower_ascii :
    forall s, forallb is_ascii s = true -> str_lower s = ascii_lower <$> s;
  (** lower-casing keeps a trailing per-cent sign in place *)
  lower_percent : forall s, str_lower (s ++ [PERCENT]) = str_lower s ++ [PERCENT];
  (** upper-casing a trimmed text never ends in a blank *)
  upper_no_trailing_space :
    forall s, endswith (str_upper (strip s)) SPACE = false;
}.

(** ** Cells *)

Section Cells.
Context {R : Runtime}.

(** The objects found in a frame read with [dtype=object]: [None], the
    float NaN of an empty cell, a float, an int, a string, and a
    [Timestamp], [datetime] or [date]. *)
Inductive cell :=
| CNone
| CNaN
| CFloat (f : float)
| CInt (n : Z)
| CStr (s : pystr)
| CDate (t : Timestamp).

(** [str(x)] *)
Definition str (x : cell) : pystr :=
  match x with
  | CNone => py "None"
  | CNaN => py "nan"
  | CFloat f => float_str f
  | CInt n => str_of_int n
  | CStr s => s
  | CDate t => ts_str t
  end.

(** [x is None or (isinstance(x, float) and np.isnan(x))] *)
Definition is_missing (x : cell) : bool :=
  match x with
  | CNone | CNaN => true
  | _ => false
  end.

End Cells.

(** A row ([df.iloc[r]]) and a frame read with [header=None]. *)
Abbreviation Row := (list cell).
Abbreviation DataFrame := (list (list cell)).

Section Frames.
Context {R : Runtime}.

(** [row.iloc[c]] *)
Definition iloc (row : Row) (c : nat) : result cell :=
  match row !! c with
  | Some v => Ok v
  | None => Raise IndexError
  end.

(** [row.iloc[i]] for an index that may be negative: Python counts a
    negative index from the end. *)
Definition iloc_z (row : Row) (i : Z) : result cell :=
  if 0 <=? i then iloc row (Z.to_nat i)
  else if - Z.of_nat (length row) <=? i then
    iloc row (Z.to_nat (Z.of_nat (length row) + i))
  else Raise IndexError.

(** [df.iat[r, c]] *)
Definition iat (df : DataFrame) (r c : nat) : result cell :=
  match df !! r with
  | Some row => iloc row c
  | None => Raise IndexError
  end.

(** *** Regular expressions, as matchers in continuation style

    [k] is the matcher of what follows in the pattern. *)

(** [$]: the end of the text, or just before a final newline. *)
Definition at_end (s : pystr) : bool :=
  match s with
  | [] => true
  | [c] => (c =? 10)%N
  | _ => false
  end.

(** [\d{lo,hi}] *)
Fixpoint rep_digits (lo hi : nat) (k : pystr -> bool) (s : pystr) : bool :=
  match hi with
  | O => Nat.eqb lo 0 && k s
  | S hi' =>
      match s with
      | c :: s' => is_digit c && rep_digits (Nat.pred lo) hi' k s'
      | [] => false
      end
      || Nat.eqb lo 0 && k s
  end.

(** [\s*] *)
Fixpoint spaces_star (k : pystr -> bool) (s : pystr) : bool :=
  k s ||
  match s with
  | c :: s' => is_space c && spaces_star k s'
  | [] => false
  end.

(** [\s+] *)
Definition spaces_plus (k : pystr -> bool) (s : pystr) : bool :=
  match s with
  | c :: s' => is_space c && spaces_star k s'
  | [] => false
  end.

(** one character out of a class *)
Definition one_of (cs : list N) (k : pystr -> bool) (s : pystr) : bool :=
  match s with
  | c :: s' => existsb (N.eqb c) cs && k s'
  | [] => false
  end.

Definition SLASH : N := 47.
Definition HYPHEN : N := 45.
Definition COLON : N := 58.

(** [DATE_RE.match(s)]: [^\s*(\d{1,2})[/-](\d{1,2})[/-](\d{2,4})\s*$] *)
Definition DATE_RE (s : pystr) : bool :=
  spaces_star
    (rep_digits 1 2 (one_of [SLASH; HYPHEN]
      (rep_digits 1 2 (one_of [SLASH; HYPHEN]
        (rep_digits 2 4 (spaces_star at_end)))))) s.

(** [ISO_RE.match(s)]:
    [^\d{4}-\d{2}-\d{2}(?:\s+\d{2}:\d{2}:\d{2})?$] *)
Definition ISO_RE (s : pystr) : bool :=
  rep_digits 4 4 (one_of [HYPHEN]
    (rep_digits 2 2 (one_of [HYPHEN]
      (rep_digits 2 2 (fun s' =>
        spaces_plus
          (rep_digits 2 2 (one_of [COLON]
            (rep_digits 2 2 (one_of [COLON]
              (rep_digits 2 2 at_end))))) s'
        || at_end s'))))) s.

(** *** The scan shared by the two [find_date_header_row]

    The two functions differ in the date test, in the threshold and in the
    test for the totals caption only. *)
Section HeaderScan.
Variable is_date_like : cell -> bool.
Variable threshold : nat.
Variable is_total_caption : cell -> bool.

(** [[c for c, v in enumerate(row) if is_date_like(v)]], counting from [c] *)
Fixpoint date_cols_from (c : nat) (row : Row) : list nat :=
  match row with
  | [] => []
  | v :: row' =>
      if is_date_like v then c :: date_cols_from (S c) row'
      else date_cols_from (S c) row'
  end.

(** [min(l)], [max(l)] of a list that is not empty *)
Definition py_min (l : list nat) : nat :=
  match l with
  | [] => 0%nat
  | x :: l' => foldl Nat.min x l'
  end.
Definition py_max (l : list nat) : nat :=
  match l with
  | [] => 0%nat
  | x :: l' => foldl Nat.max x l'
  end.

(** The inner loop [for c in range(max(date_cols) + 1, len(row))], on the
    cells from column [c] on; [-1] when it ends without [break]. *)
Fixpoint find_total (c : nat) (cells : Row) : Z :=
  match cells with
  | [] => -1
  | v :: rest =>
      if is_total_caption v then Z.of_nat c else find_total (S c) rest
  end.

(** The outer loop [for r in range(len(df))], on the rows from [r] on. *)
Fixpoint scan_header (r : nat) (rows : DataFrame) : Z * Z * Z * Z :=
  match rows with
  | [] => (-1, -1, -1, -1)
  | row :: rest =>
      let date_cols := date_cols_from 0 row in
      if (threshold <=? length date_cols)%nat then
        let tot_col :=
          find_total (py_max date_cols + 1)
                     (drop (py_max date_cols + 1) row) in
        (Z.of_nat r, Z.of_nat (py_min date_cols),
         Z.of_nat (py_max date_cols), tot_col)
      else scan_header (S r) rest
  end.

End HeaderScan.

End Frames.

(** ** Output records and tables *)

Section Tables.
Context {R : Runtime}.

Record OutputRecord := {
  source_file : pystr;
  section : option pystr;
  metric_label : option pystr;
  date : option Timestamp;
  value_raw : pystr;
  value_num : option float;
  is_percent : bool;
  is_total : bool;
}.

(** A DataFrame of output records: its column index and its rows. *)
Record Table := {
  columns : list pystr;
  rows : list OutputRecord;
}.

Definition COLS : list pystr :=
  [py "source_file"; py "section"; py "metric_label"; py "date";
   py "value_raw"; py "value_num"; py "is_percent"; py "is_total"].

(** [pd.DataFrame()] *)
Definition empty_frame : Table := {| columns := []; rows := [] |}.

(** [pd.DataFrame.from_records(records)]: the keys of the records are the
    columns; no record, no column. *)
Definition from_records (records : list OutputRecord) : Table :=
  {| columns := match records with [] => [] | _ => COLS end;
     rows := records |}.

(** [t.reindex(columns=cols)] for [cols] that name fields of the records. *)
Definition reindex (cols : list pystr) (t : Table) : Table :=
  {| columns := cols; rows := rows t |}.

(** The union of two column indexes, in order of first appearance. *)
Definition merge_columns (a b : list pystr) : list pystr :=
  a ++ filter (fun x => x ∉ a) b.

(** [pd.concat(frames, ignore_index=True)]: [None] entries are dropped; an
    empty list and a list of [None] only are [ValueError]s. *)
Definition pd_concat (frames : list (option Table)) : result Table :=
  match frames with
  | [] => Raise NoObjectsToConcatenate
  | _ =>
      match omap id frames with
      | [] => Raise AllObjectsNone
      | ts => Ok {| columns := foldl merge_columns [] (map columns ts);
                    rows := concat (map rows ts) |}
      end
  end.

End Tables.

(** ** The section table *)

Definition SECTION_SYNONYMS : gmap pystr pystr :=
  list_to_map
    [(py "RESTAURANTE", py "RESTAURANT"); (py "RESTAURANT", py "RESTAURANT");
     (py "BAR", py "BAR"); (py "BER", py "BAR");
     (py "BODA", py "BANQUETING"); (py "BENQUETING", py "BANQUETING");
     (py "BANQUETING", py "BANQUETING");
     (py "EMPRESA", py "MICE"); (py "MICE", py "MICE");
     (py "PARTICULAR", py "INDIVIDUALS"); (py "INDIVIDUALS", py "INDIVIDUALS");
     (py "TIENDA RESTAURANTE 43", py "SHOP"); (py "SHOP", py "SHOP");
     (py "WALK IN", py "WALKIN"); (py "WALKIN", py "WALKIN");
     (py "INTERNO", py "EMPLOYEES"); (py "EMPLEADOS", py "EMPLOYEES");
     (py "Empleados", py "EMPLOYEES")].

(** ** Files and the command line *)

(** [pathlib] and the pandas readers: [Path(f).suffix], [Path(f).name],
    [pd.read_excel(path, sheet_name=..., header=None, dtype=object)] and
    [pd.read_csv(path, header=None, dtype=object)]. *)
Class FileSystem {R : Runtime} := {
  path_suffix : pystr -> pystr;
  path_name : pystr -> pystr;
  read_excel : pystr -> pystr -> result DataFrame;
  read_csv : pystr -> result DataFrame;
}.

(** The first block of both [normalize_file]: the reader is chosen by the
    lower-cased suffix, and any other suffix is a [ValueError]. *)
Definition read_frame {R : Runtime} {FS : FileSystem}
    (path sheet_name : pystr) : result DataFrame :=
  let suffix := str_lower (path_suffix path) in
  if str_in suffix [py ".xlsx"; py ".xlsm"; py ".xls"] then
    read_excel path sheet_name
  else if pystr_eqb suffix (py ".csv") then read_csv path
  else Raise (UnsupportedFormat (path_suffix path)).

(** The command line as [argparse] sees it: the value of [--out] and of
    [--sheet] when given, whether [--peek] is present, and the positional
    arguments. *)
Record CommandLine := {
  cli_out : option pystr;
  cli_sheet : option pystr;
  cli_peek : bool;
  cli_files : list pystr;
}.

(** The namespace [ap.parse_args()] returns. *)
Record Args := {
  args_out : pystr;
  args_sheet : pystr;
  args_peek : bool;
  args_files : list pystr;
}.

(** [--out] is [required=True], [--sheet] defaults to ["Daily"], and
    [files] is [nargs="+"]: without at least one file [argparse] reports a
    usage error and exits. *)
Definition parse_args (cl : CommandLine) : result Args :=
  match cli_out cl, cli_files cl with
  | Some out, _ :: _ =>
      Ok {| args_out := out;
            args_sheet := default (py "Daily") (cli_sheet cl);
            args_peek := cli_peek cl;
            args_files := cli_files cl |}
  | _, _ => Raise UsageError
  end.

(** ** backup_normalize_daily_reports.py *)

Module Backup.
Section WithRuntime.
Context {R : Runtime}.

Definition is_date_like (x : cell) : bool :=
  match x with
  | CNone | CNaN => false
  | CDate _ => true
  | _ =>
      let s := strip (str x) in
      if bool_decide (s = []) then false
      else
        match to_datetime true s with
        | Some d => (1900 <=? ts_year d) && (ts_year d <=? 2100)
        | None => false
        end
  end.

(** [None] stands for [pd.NaT]. *)
Definition parse_date (x : cell) : option Timestamp :=
  let s := strip (str x) in
  if bool_decide (s = []) then None
  else if ISO_RE s then to_datetime false s
  else to_datetime true s.

(** Locale normalisation of the number parser: the three [replace] calls
    that delete no-break spaces and blanks and turn a comma into a period. *)
Definition normalize_locale (s : pystr) : pystr :=
  replace COMMA [PERIOD] (replace SPACE [] (replace NBSP [] s)).

(** The string path of [parse_number], from [s = str(x).strip()] on. *)
Definition parse_number_str (s0 : pystr) : option float * bool :=
  let s := strip s0 in
  if bool_decide (s = []) || str_in (str_lower s) [py "nan"; py "none"; py "-"]
  then (None, false)
  else
    let is_pct := endswith s PERCENT in
    let s := if is_pct then strip (drop_last s) else s in
    let s := normalize_locale s in
    match float_of_str s with
    | None => (None, is_pct)
    | Some val =>
        let val := if is_pct then float_div100 val else val in
        (Some val, is_pct)
    end.

Definition parse_number (x : cell) : option float * bool :=
  match x with
  | CNone => (None, false)
  | CNaN => (None, false)
  | CInt n => (Some (float_of_int n), false)
  | CFloat f => (Some f, false)
  | _ => parse_number_str (str x)
  end.

(** [isinstance(v, str) and v.strip().upper() in {"TOTAL", "TOTAL "}] *)
Definition is_total_caption (v : cell) : bool :=
  match v with
  | CStr s => str_in (str_upper (strip s)) [py "TOTAL"; py "TOTAL "]
  | _ => false
  end.

Definition find_date_header_row (df : DataFrame) : Z * Z * Z * Z :=
  scan_header is_date_like 3 is_total_caption 0 df.

(** [col2date[c] = d] on a dict kept in insertion order. *)
Fixpoint dict_set {V} (c : nat) (d : V) (m : list (nat * V)) : list (nat * V) :=
  match m with
  | [] => [(c, d)]
  | (c', d') :: m' =>
      if Nat.eqb c c' then (c, d) :: m' else (c', d') :: dict_set c d m'
  end.

(** The loop that fills [col2date], over the columns [cs] still to visit. *)
Fixpoint fill_col2date (df : DataFrame) (date_hdr_row : nat) (cs : list nat)
    (col2date : list (nat * Timestamp)) : result (list (nat * Timestamp)) :=
  match cs with
  | [] => Ok col2date
  | c :: cs' =>
      v ← iat df date_hdr_row c;
      match parse_date v with
      | Some d =>
          fill_col2date df date_hdr_row cs' (dict_set c (ts_normalize d) col2date)
      | None => fill_col2date df date_hdr_row cs' col2date
      end
  end.

(** The loop [for c in range(0, first_c)] that finds the label of a row,
    over the columns [cs] still to visit. *)
Fixpoint find_label (row : Row) (cs : list nat) (label : option pystr)
    : result (option pystr) :=
  match cs with
  | [] => Ok label
  | c :: cs' =>
      v ← iloc row c;
      match v with
      | CStr s =>
          if bool_decide (strip s ≠ []) then find_label row cs' (Some (strip s))
          else find_label row cs' label
      | _ => find_label row cs' label
      end
  end.

(** [current_section] after the label of the row has been looked at. A
    label is never the empty string, so [if label] asks whether there is
    one. *)
Definition update_section (label current_section : option pystr)
    : option pystr :=
  match label with
  | Some l =>
      match SECTION_SYNONYMS !! str_upper l with
      | Some canonical => Some canonical
      | None => current_section
      end
  | None => current_section
  end.

(** [metric_label] of the row. *)
Definition metric_of (label : option pystr) : option pystr :=
  match label with
  | Some l =>
      match SECTION_SYNONYMS !! str_upper l with
      | Some _ => None
      | None => Some l
      end
  | None => None
  end.

(** The loop [for c, d in col2date.items()] of one row, over the items
    still to visit; [records] is the list being appended to. *)
Fixpoint emit_daily (name : pystr) (current_section metric_label : option pystr)
    (row : Row) (items : list (nat * Timestamp))
    (records : list OutputRecord) : result (list OutputRecord) :=
  match items with
  | [] => Ok records
  | (c, d) :: items' =>
      v ← iloc row c;
      if is_missing v then
        emit_daily name current_section metric_label row items' records
      else
        let s := strip (str v) in
        if bool_decide (s = []) then
          emit_daily name current_section metric_label row items' records
        else if is_date_like v then
          emit_daily name current_section metric_label row items' records
        else
          let '(val_num, is_pct) := parse_number (CStr s) in
          emit_daily name current_section metric_label row items'
            (records ++ [{| source_file := name;
                            section := current_section;
                            metric_label := metric_label;
                            date := Some d;
                            value_raw := s;
                            value_num := val_num;
                            is_percent := is_pct;
                            is_total := false |}])
  end.

(** The block that emits the total of one row. *)
Definition emit_total (name : pystr) (current_section metric_label : option pystr)
    (row : Row) (total_c : Z) (records : list OutputRecord)
    : result (list OutputRecord) :=
  if negb (total_c =? -1) && (total_c <? Z.of_nat (length row)) then
    tv ← iloc_z row total_c;
    if negb (is_missing tv) && bool_decide (strip (str tv) ≠ []) then
      let s := strip (str tv) in
      let '(val_num, is_pct) := parse_number (CStr s) in
      Ok (records ++ [{| source_file := name;
                         section := current_section;
                         metric_label := metric_label;
                         date := None;
                         value_raw := s;
                         value_num := val_num;
                         is_percent := is_pct;
                         is_total := true |}])
    else Ok records
  else Ok records.

(** The body of the loop over the rows below the header: from the state
    [(current_section, records)] to the state after the row. *)
Definition process_row (name : pystr) (first_c : nat)
    (col2date : list (nat * Timestamp)) (total_c : Z)
    (st : option pystr * list OutputRecord) (row : Row)
    : result (option pystr * list OutputRecord) :=
  let '(current_section, records) := st in
  label ← find_label row (seq 0 first_c) None;
  let current_section := update_section label current_section in
  let metric_label := metric_of label in
  records ← emit_daily name current_section metric_label row col2date records;
  records ← emit_total name current_section metric_label row total_c records;
  Ok (current_section, records).

(** The loop [for r in range(date_hdr_row + 1, len(df))]. *)
Fixpoint process_rows (name : pystr) (first_c : nat)
    (col2date : list (nat * Timestamp)) (total_c : Z)
    (st : option pystr * list OutputRecord) (rows : DataFrame)
    : result (option pystr * list OutputRecord) :=
  match rows with
  | [] => Ok st
  | row :: rest =>
      st' ← process_row name first_c col2date total_c st row;
      process_rows name first_c col2date total_c st' rest
  end.

(** [normalize_file] from the call of [find_date_header_row] on: [name] is
    [path.name] and [df] the frame that was read. *)
Definition normalize_frame (name : pystr) (df : DataFrame) : result Table :=
  let '(date_hdr_row, first_c, last_c, total_c) := find_date_header_row df in
  if date_hdr_row <? 0 then Raise (HeaderNotFound name)
  else
    let hdr := Z.to_nat date_hdr_row in
    let first := Z.to_nat first_c in
    col2date ← fill_col2date df hdr
                 (seq first (Z.to_nat (last_c + 1) - first)) [];
    st ← process_rows name first col2date total_c (None, []) (drop (S hdr) df);
    Ok (reindex COLS (from_records st.2)).

Context {FS : FileSystem}.

Definition normalize_file (path sheet_name : pystr) : result Table :=
  df ← read_frame path sheet_name;
  normalize_frame (path_name path) df.

(** The loop [for f in args.files] of [main]; the preview files that
    [--peek] asks for are written on the side and leave [frames] as it is. *)
Fixpoint collect_frames (sheet : pystr) (files : list pystr)
    (frames : list Table) : result (list Table) :=
  match files with
  | [] => Ok frames
  | f :: files' =>
      df ← normalize_file f sheet;
      collect_frames sheet files' (frames ++ [df])
  end.

(** [main] after the frames are there: the master table handed to
    [to_csv]. *)
Definition aggregate (frames : list Table) : result Table :=
  master ← (match frames with
            | [] => Ok empty_frame
            | _ => pd_concat (map Some frames)
            end);
  Ok (reindex COLS master).

(** [main]: the result is the master table written to [args.out]. *)
Definition main (cl : CommandLine) : result Table :=
  args ← parse_args cl;
  frames ← collect_frames (args_sheet args) (args_files args) [];
  aggregate frames.

End WithRuntime.
End Backup.

(** ** normalize_daily_reports.py *)

Module Normalize.
Section WithRuntime.
Context {R : Runtime}.

Definition is_date_like (x : cell) : bool :=
  match x with
  | CNone | CNaN => false
  | _ => DATE_RE (strip (str x))
  end.

Definition parse_date (x : cell) : option Timestamp :=
  to_datetime true (strip (str x)).

Definition parse_number (raw : cell) : option float * bool :=
  match raw with
  | CNone => (None, false)
  | _ =>
      let s := strip (str raw) in
      let is_pct := endswith s PERCENT in
      let s_clean := if is_pct then drop_last s else s in
      let s_clean := replace COMMA [PERIOD] (replace PERIOD [] s_clean) in
      match float_of_str s_clean with
      | Some val =>
          let val := if is_pct then float_div100 val else val in
          (Some val, is_pct)
      | None => (None, is_pct)
      end
  end.

(** [isinstance(v, str) and v.strip().upper() == "TOTAL"] *)
Definition is_total_caption (v : cell) : bool :=
  match v with
  | CStr s => pystr_eqb (str_upper (strip s)) (py "TOTAL")
  | _ => false
  end.

Definition find_date_header_row (df : DataFrame) : Z * Z * Z * Z :=
  scan_header is_date_like 5 is_total_caption 0 df.

Context {FS : FileSystem}.

(** The body ends after the header check: the function falls off its end
    and returns [None]. *)
Definition normalize_file (path sheet_name : pystr) : result (option Table) :=
  df ← read_frame path sheet_name;
  let '(date_hdr_row, first_c, last_c, total_c) := find_date_header_row df in
  if date_hdr_row <? 0 then Raise (HeaderNotFound (path_name path))
  else Ok None.

Fixpoint collect_frames (sheet : pystr) (files : list pystr)
    (frames : list (option Table)) : result (list (option Table)) :=
  match files with
  | [] => Ok frames
  | f :: files' =>
      df ← normalize_file f sheet;
      collect_frames sheet files' (frames ++ [df])
  end.

(** [main]: the result is the master table written to [args.out]. This
    script declares no [--peek]: [argparse] refuses it. *)
Definition main (cl : CommandLine) : result Table :=
  args ← (if cli_peek cl then Raise UsageError else parse_args cl);
  frames ← collect_frames (args_sheet args) (args_files args) [];
  master ← pd_concat frames;
  Ok (reindex COLS master).

End WithRuntime.
End Normalize.

(** ** A small runtime to run the model on sample grids

    ASCII case mapping, plain decimal numerals kept as mantissa and decimal
    exponent, and dates written [YYYY-MM-DD] or [D/M/YYYY]. *)

Module Sample.

Definition ascii_digit (c : N) : bool := ((48 <=? c) && (c <=? 57))%N.

(** The longest run of digits at the head of [s]: its value on top of
    [acc], its length on top of [n], and what follows. *)
Fixpoint read_digits (s : pystr) (acc : Z) (n : nat) : Z * nat * pystr :=
  match s with
  | c :: s' =>
      if ascii_digit c then read_digits s' (10 * acc + Z.of_N (c - 48)) (S n)
      else (acc, n, s)
  | [] => (acc, n, s)
  end.

Definition decimal_of_str (s : pystr) : option (Z * Z) :=
  let '(sign, s1) :=
    match s with
    | 45%N :: t => (-1, t)
    | 43%N :: t => (1, t)
    | _ => (1, s)
    end in
  let '(ip, n1, r1) := read_digits s1 0 0 in
  match r1 with
  | [] => if (0 <? n1)%nat then Some (sign * ip, 0) else None
  | 46%N :: r2 =>
      let '(fp, n2, r3) := read_digits r2 ip 0 in
      match r3 with
      | [] => if (0 <? n1 + n2)%nat then Some (sign * fp, - Z.of_nat n2) else None
      | _ => None
      end
  | _ => None
  end.

Definition pad (width : nat) (z : Z) : pystr :=
  let s := str_of_int z in
  replicate (width - length s) 48%N ++ s.

Definition valid_ymd (y m d : Z) : option (Z * Z * Z) :=
  if (1 <=? m) && (m <=? 12) && (1 <=? d) && (d <=? 31) then Some (y, m, d)
  else None.

Definition date_of_str (dayfirst : bool) (s : pystr) : option (Z * Z * Z) :=
  let '(a, na, r1) := read_digits s 0 0 in
  match r1 with
  | sep1 :: r1' =>
      let '(b, nb, r2) := read_digits r1' 0 0 in
      match r2 with
      | sep2 :: r2' =>
          let '(c, nc, r3) := read_digits r2' 0 0 in
          if bool_decide (r3 = [] \/ r3 = py " 00:00:00") then
            if Nat.eqb na 4 && (sep1 =? 45)%N && (sep2 =? 45)%N then
              valid_ymd a b c
            else if Nat.eqb nc 4 && existsb (N.eqb sep1) [45%N; 47%N]
                    && (sep2 =? sep1)%N && (0 <? na)%nat && (0 <? nb)%nat then
              if dayfirst then valid_ymd c b a else valid_ymd c a b
            else None
          else None
      | [] => None
      end
  | [] => None
  end.

#[export] Instance runtime : Runtime := {|
  float := Z * Z;
  float_of_str := decimal_of_str;
  float_of_int := fun z => (z, 0);
  float_div100 := fun v => (v.1, v.2 - 2);
  float_str := fun v => str_of_int v.1 ++ py "e" ++ str_of_int v.2;
  str_upper := fmap ascii_upper;
  str_lower := fmap ascii_lower;
  is_digit := ascii_digit;
  Timestamp := Z * Z * Z;
  to_datetime := date_of_str;
  ts_year := fun t => t.1.1;
  ts_normalize := fun t => t;
  ts_str := fun t =>
    pad 4 t.1.1 ++ py "-" ++ pad 2 t.1.2 ++ py "-" ++ pad 2 t.2 ++ py " 00:00:00";
|}.

Definition txt (s : string) : cell := CStr (py s).

(** A sheet exported to CSV: a title line, the date header with a TOTAL
    caption, a section title and two metric lines. *)
Definition daily : DataFrame :=
  [ [txt "Daily report"; CNaN; CNaN; CNaN; CNaN; CNaN; CNaN; CNaN];
    [CNaN; CNaN; txt "1/1/2025"; txt "2/1/2025"; txt "3/1/2025";
     txt "4/1/2025"; txt "5/1/2025"; txt " Total "];
    [txt "RESTAURANT"; CNaN; CNaN; CNaN; CNaN; CNaN; CNaN; CNaN];
    [CNaN; txt "COMIDA"; txt "10"; txt "20"; CNaN; txt "1,5"; CNaN; txt "31,5"];
    [CNaN; txt "BEBIDA"; txt "5"; txt "8"; txt "12%"; CNaN; CNaN; CNaN] ].

(** The column-to-date map of [daily]. *)
Definition dates : list (nat * Timestamp) :=
  [(2%nat, (2025, 1, 1)); (3%nat, (2025, 1, 2)); (4%nat, (2025, 1, 3));
   (5%nat, (2025, 1, 4)); (6%nat, (2025, 1, 5))].

(** A line of the same sheet with two texts left of the dates. *)
Definition two_labels : Row :=
  [txt "RESTAURANT"; txt "COMIDA"; txt "10"; txt "20"; CNaN; CNaN; CNaN;
   txt "30"].

(** A line of the same sheet that restates a date under the header. *)
Definition restated : Row :=
  [CNaN; txt "COMIDA"; txt "1/1/2025"; txt "20"; CNaN; CNaN; CNaN; CNaN].

(** The suffix of a bare file name: from its last period on. *)
Fixpoint suffix_of (s : pystr) : pystr :=
  match s with
  | [] => []
  | c :: s' =>
      match suffix_of s' with
      | [] => if (c =? PERIOD)%N then s else []
      | t => t
      end
  end.

#[export] Instance files : FileSystem := {|
  path_suffix := suffix_of;
  path_name := fun p => p;
  read_excel := fun _ _ => Raise ReadError;
  read_csv := fun p =>
    if pystr_eqb p (py "daily.csv") then Ok daily else Raise ReadError;
|}.

(** The table [normalize_file] returns for [daily.csv]. *)
Definition daily_table : Table :=
  Eval vm_compute in
    match Backup.normalize_file (py "daily.csv") (py "Daily") with
    | Ok t => t
    | Raise _ => empty_frame
    end.

End Sample.

(** ** Files held in memory

    A file system that serves the frames of a list by their names, to run
    the scripts on more than one sample file. *)
Definition memory_files {R : Runtime} (frames : list (pystr * DataFrame))
    : FileSystem :=
  let read p :=
    match list_find (fun kv : pystr * DataFrame => kv.1 = p) frames with
    | Some (_, (_, df)) => Ok df
    | None => Raise ReadError
    end in
  {| path_suffix := Sample.suffix_of;
     path_name := fun p => p;
     read_excel := fun p _ => read p;
     read_csv := read |}.

(** ** What one row contributes

    The loops of [Backup.process_row] in closed form; the properties
    relate them to the loops. *)

Section RowSpec.
Context {R : Runtime}.

(** A cell that holds a value: neither [None] nor NaN, and not blank. *)
Definition nonempty_cell (v : cell) : bool :=
  negb (is_missing v) && bool_decide (strip (str v) ≠ []).

(** A cell that can be a label: a string that is not blank. *)
Definition is_label_cell (v : cell) : bool :=
  match v with
  | CStr s => bool_decide (strip s ≠ [])
  | _ => false
  end.

Definition label_step (label : option pystr) (v : cell) : option pystr :=
  if is_label_cell v then Some (strip (str v)) else label.

(** The label of a row whose dates start in column [first_c]. *)
Definition row_label (first_c : nat) (row : Row) : option pystr :=
  foldl label_step None (take first_c row).

(** The canonical section a label stands for, when it is a key of the
    section table once upper-cased. *)
Definition section_of_label (label : option pystr) : option pystr :=
  l ← label; SECTION_SYNONYMS !! str_upper l.

(** A cell of a date column that gives a record: it holds a value and is
    not itself date-like. *)
Definition emits (v : cell) : bool :=
  nonempty_cell v && negb (Backup.is_date_like v).

Definition make_record (name : pystr) (current_section metric : option pystr)
    (d : option Timestamp) (total : bool) (v : cell) : OutputRecord :=
  let s := strip (str v) in
  {| source_file := name;
     section := current_section;
     metric_label := metric;
     date := d;
     value_raw := s;
     value_num := (Backup.parse_number (CStr s)).1;
     is_percent := (Backup.parse_number (CStr s)).2;
     is_total := total |}.

(** One record for each item of [col2date] whose cell [emits], in the
    order of the items. *)
Definition daily_records (name : pystr) (current_section metric : option pystr)
    (row : Row) (col2date : list (nat * Timestamp)) : list OutputRecord :=
  omap (fun cd : nat * Timestamp =>
          match row !! cd.1 with
          | Some v =>
              if emits v
              then Some (make_record name current_section metric (Some cd.2) false v)
              else None
          | None => None
          end) col2date.

(** The record of the totals column, when there is one and its cell holds
    a value. *)
Definition total_records (name : pystr) (current_section metric : option pystr)
    (row : Row) (total_c : Z) : list OutputRecord :=
  if (0 <=? total_c) then
    match row !! Z.to_nat total_c with
    | Some tv =>
        if nonempty_cell tv
        then [make_record name current_section metric None true tv]
        else []
    | None => []
    end
  else [].

(** A record is a total without date, or a daily one with a date of the
    map. *)
Definition record_from (col2date : list (nat * Timestamp))
    (r : OutputRecord) : Prop :=
  (is_total r = true /\ date r = None) \/
  (is_total r = false /\ exists c d, (c, d) ∈ col2date /\ date r = Some d).

(** A frame has the same number of cells in every row. *)
Definition rectangular (df : DataFrame) : Prop :=
  exists ncols, Forall (fun row : Row => length row = ncols) df.

(** The columns a row must have for the loops to stay in range. *)
Definition row_in_range (first_c : nat) (col2date : list (nat * Timestamp))
    (row : Row) : bool :=
  (first_c <=? length row)%nat &&
  forallb (fun cd : nat * Timestamp => (cd.1 <? length row)%nat) col2date.

(** The left-most cell that holds a value among the columns left of
    [first_c], as text: the label a row would have if it were taken from
    the left. *)
Definition leftmost_value (first_c : nat) (row : Row) : option pystr :=
  (fun v => strip (str v)) <$> head (List.filter nonempty_cell (take first_c row)).

(** The number of items of [col2date] whose cell holds a value. *)
Definition count_nonempty (row : Row) (col2date : list (nat * Timestamp)) : nat :=
  length (List.filter
            (fun cd : nat * Timestamp =>
               match row !! cd.1 with
               | Some v => nonempty_cell v
               | None => false
               end) col2date).

End RowSpec.

(** ** What the header locator is to return

    Stated on the grid alone, for a date test [is_date_like], a threshold
    and a test [is_total] for the caption of the totals column. *)

(** A text cell that reads TOTAL once trimmed and upper-cased. *)
Definition total_text {R : Runtime} (v : cell) : bool :=
  match v with
  | CStr s => pystr_eqb (str_upper (strip s)) (py "TOTAL")
  | _ => false
  end.

Section HeaderSpec.
Context {R : Runtime}.
Variable is_date_like : cell -> bool.
Variable threshold : nat.
Variable is_total : cell -> bool.

(** The number of date-like cells of a row. *)
Definition count_date_like (row : Row) : nat :=
  length (List.filter is_date_like row).

(** Column [c] of the row holds a date-like cell. *)
Definition date_like_at (row : Row) (c : nat) : Prop :=
  exists v, row !! c = Some v /\ is_date_like v = true.

(** [tot] is the first column right of [last] that holds a totals
    caption, or [-1] when there is none. *)
Definition total_located (row : Row) (last : nat) (tot : Z) : Prop :=
  (tot = -1 /\
   forall c v, (last < c)%nat -> row !! c = Some v -> is_total v = false)
  \/
  (exists c v,
     tot = Z.of_nat c /\ (last < c)%nat /\ row !! c = Some v /\
     is_total v = true /\
     forall c' v', (last < c' < c)%nat -> row !! c' = Some v' ->
                   is_total v' = false).

Inductive header_located (df : DataFrame) : Z * Z * Z * Z -> Prop :=
| no_header :
    (forall r row, df !! r = Some row ->
                   (count_date_like row < threshold)%nat) ->
    header_located df (-1, -1, -1, -1)
| header_at (r : nat) (row : Row) (first last : nat) (tot : Z) :
    df !! r = Some row ->
    (threshold <= count_date_like row)%nat ->
    (forall r' row', (r' < r)%nat -> df !! r' = Some row' ->
                     (count_date_like row' < threshold)%nat) ->
    date_like_at row first ->
    (forall c, date_like_at row c -> (first <= c)%nat) ->
    date_like_at row last ->
    (forall c, date_like_at row c -> (c <= last)%nat) ->
    total_located row last tot ->
    header_located df (Z.of_nat r, Z.of_nat first, Z.of_nat last, tot).

End HeaderSpec.

(** ** The shape of a header location

    What a caller of [find_date_header_row] may rely on, for a threshold:
    the four sentinels together, or a row of the frame with a date span of
    at least [threshold] columns inside the row and a totals column that is
    [-1] or lies right of the span, inside the row. *)
Definition header_in_bounds {R : Runtime} (threshold : nat) (df : DataFrame)
    (res : Z * Z * Z * Z) : Prop :=
  res = (-1, -1, -1, -1) \/
  exists (r first last : nat) (row : Row) (tot : Z),
    res = (Z.of_nat r, Z.of_nat first, Z.of_nat last, tot) /\
    df !! r = Some row /\
    (first + threshold <= last + 1)%nat /\ (last < length row)%nat /\
    (tot = -1 \/ Z.of_nat last < tot < Z.of_nat (length row)).

(** * Properties *)

(** ** Strings *)

Lemma lstrip_snoc (s : pystr) (c : N) :
  is_space c = false -> lstrip (s ++ [c]) = lstrip s ++ [c].
Proof.
  intros Hc. induction s as [|x s IH]; simpl.
  - by rewrite Hc.
  - destruct (is_space x); [exact IH | reflexivity].
Qed.

Lemma rstrip_snoc (s : pystr) (c : N) :
  is_space c = false -> rstrip (s ++ [c]) = s ++ [c].
Proof.
  intros Hc. unfold rstrip. rewrite reverse_snoc. simpl. rewrite Hc.
  by rewrite reverse_cons, reverse_involutive.
Qed.

Lemma lstrip_idemp (s : pystr) : lstrip (lstrip s) = lstrip s.
Proof.
  induction s as [|x s IH]; simpl; [done|].
  destruct (is_space x) eqn:Hx; [exact IH|]. simpl. by rewrite Hx.
Qed.

Lemma strip_snoc (s : pystr) (c : N) :
  is_space c = false -> strip (s ++ [c]) = lstrip s ++ [c].
Proof.
  intros Hc. unfold strip.
  rewrite lstrip_snoc by done. by apply rstrip_snoc.
Qed.

Lemma strip_lstrip (s : pystr) : strip (lstrip s) = strip s.
Proof. unfold strip. by rewrite lstrip_idemp. Qed.

Lemma endswith_snoc (s : pystr) (c : N) : endswith (s ++ [c]) c = true.
Proof. unfold endswith. rewrite last_snoc. apply N.eqb_refl. Qed.

Lemma str_in_snoc_false (s : pystr) (c : N) (xs : list pystr) :
  forallb (fun x => negb (endswith x c)) xs = true ->
  str_in (s ++ [c]) xs = false.
Proof.
  intros H. unfold str_in. induction xs as [|x xs IH]; simpl in *; [done|].
  apply andb_prop in H as [Hx Hxs]. rewrite IH by done.
  rewrite orb_false_r. unfold pystr_eqb. apply bool_decide_eq_false.
  intros <-. by rewrite endswith_snoc in Hx.
Qed.

(** ** The number parser *)

(** C3. A string that ends in a per-cent sign is parsed with
    [is_percent = true]; the sign is removed before the text, trimmed and
    locale-normalised, goes to [float()]; the value is the parsed number
    divided by 100, and a text that [float()] refuses gives
    [(None, True)] instead of an exception. *)
Theorem parse_number_percent {R : Runtime} {L : RuntimeLaws R} (s : pystr) :
  Backup.parse_number (CStr (s ++ [PERCENT])) =
    (float_div100 <$> float_of_str (Backup.normalize_locale (strip s)), true).
Proof.
  simpl. unfold Backup.parse_number_str.
  rewrite strip_snoc by reflexivity.
  rewrite lower_percent.
  rewrite str_in_snoc_false by reflexivity.
  rewrite endswith_snoc.
  replace (bool_decide (lstrip s ++ [PERCENT] = [])) with false.
  2:{ symmetry. apply bool_decide_eq_false. by destruct (lstrip s). }
  simpl. unfold drop_last. rewrite removelast_last, strip_lstrip.
  by destruct (float_of_str _).
Qed.

Lemma lstrip_head (s : pystr) (c : N) :
  head (lstrip s) = Some c -> is_space c = false.
Proof.
  induction s as [|x s IH]; simpl; [done|].
  destruct (is_space x) eqn:Hx; [exact IH|]. simpl. by intros [= <-].
Qed.

Lemma strip_last (s : pystr) (c : N) :
  last (strip s) = Some c -> is_space c = false.
Proof.
  unfold strip, rstrip. rewrite last_reverse. apply lstrip_head.
Qed.

Lemma strip_nonempty_last (s : pystr) :
  strip s ≠ [] -> exists t c, strip s = t ++ [c] /\ is_space c = false.
Proof.
  intros H. destruct (strip s) as [|x t _] eqn:E using rev_ind; [done|].
  exists t, x. split; [done|]. apply (strip_last s). rewrite E. apply last_snoc.
Qed.

(** The sample runtime obeys the laws. *)
Lemma sample_laws : RuntimeLaws Sample.runtime.
Proof.
  split.
  - reflexivity.
  - intros s. simpl. by rewrite fmap_app.
  - intros s. simpl. unfold endswith. rewrite fmap_last.
    destruct (last (strip s)) as [c|] eqn:E; simpl; [|done].
    apply strip_last in E. apply N.eqb_neq. intros Hc.
    assert (c = 32%N) as ->; [|done].
    revert Hc. unfold ascii_upper, SPACE.
    destruct (_ && _)%N eqn:Hr; [|done].
    apply andb_prop in Hr as [H1%N.leb_le H2%N.leb_le]. lia.
Qed.

Lemma parse_number_percent_sample :
  Backup.parse_number (R := Sample.runtime) (CStr (py " 1 234,5 " ++ [PERCENT]))
  = (Some (12345, -3), true).
Proof. exact (parse_number_percent (L := sample_laws) (py " 1 234,5 ")). Defined.

(** C4. The two number parsers follow different locale policies and
    disagree on ["1.234,56"]: the backup script keeps the periods, hands
    ["1.234.56"] to [float()] and returns [(None, False)]; the other script
    deletes the periods, hands ["1234.56"] to [float()] and returns that
    number. The two facts about [float()] are stated as hypotheses. *)
Theorem parse_number_variants_disagree {R : Runtime} {L : RuntimeLaws R}
    (v : float) :
  float_of_str (py "1.234.56") = None ->
  float_of_str (py "1234.56") = Some v ->
  Backup.parse_number (CStr (py "1.234,56")) = (None, false) /\
  Normalize.parse_number (CStr (py "1.234,56")) = (Some v, false) /\
  Backup.parse_number (CStr (py "1.234,56"))
    <> Normalize.parse_number (CStr (py "1.234,56")).
Proof.
  intros Hbad Hgood.
  assert (Backup.parse_number (CStr (py "1.234,56")) = (None, false)) as HB.
  { simpl. unfold Backup.parse_number_str.
    change (strip (py "1.234,56")) with (py "1.234,56").
    rewrite lower_ascii by reflexivity.
    change (Backup.normalize_locale _) with (py "1.234.56").
    by rewrite Hbad. }
  assert (Normalize.parse_number (CStr (py "1.234,56")) = (Some v, false)) as HN.
  { unfold Normalize.parse_number.
    change (strip (str (CStr (py "1.234,56")))) with (py "1.234,56").
    change (float_of_str _) with (float_of_str (py "1234.56")).
    by rewrite Hgood. }
  rewrite HB, HN. by repeat split.
Qed.

Lemma parse_number_variants_disagree_sample :
  Backup.parse_number (R := Sample.runtime) (CStr (py "1.234,56")) = (None, false) /\
  Normalize.parse_number (R := Sample.runtime) (CStr (py "1.234,56"))
    = (Some (123456, -2), false) /\
  Backup.parse_number (R := Sample.runtime) (CStr (py "1.234,56"))
    <> Normalize.parse_number (R := Sample.runtime) (CStr (py "1.234,56")).
Proof.
  exact (parse_number_variants_disagree (L := sample_laws) (123456, -2)
           eq_refl eq_refl).
Defined.

(** ** The header locator *)

Lemma foldl_min_spec (l : list nat) (a : nat) :
  (foldl Nat.min a l <= a)%nat /\
  (forall x, x ∈ l -> (foldl Nat.min a l <= x)%nat) /\
  (foldl Nat.min a l = a \/ foldl Nat.min a l ∈ l).
Proof.
  revert a. induction l as [|b l IH]; intros a; simpl.
  - split; [lia|]. split; [|by left]. by intros x ?%elem_of_nil.
  - destruct (IH (a `min` b)%nat) as (Hle & Hall & Hin).
    split; [lia|]. split.
    + intros x [->|Hx]%elem_of_cons; [lia|by apply Hall].
    + destruct Hin as [Heq|Hin]; [|right; by right].
      rewrite Heq.
      destruct (Nat.min_spec a b) as [[_ ->]|[_ ->]]; [by left|right; by left].
Qed.

Lemma foldl_max_spec (l : list nat) (a : nat) :
  (a <= foldl Nat.max a l)%nat /\
  (forall x, x ∈ l -> (x <= foldl Nat.max a l)%nat) /\
  (foldl Nat.max a l = a \/ foldl Nat.max a l ∈ l).
Proof.
  revert a. induction l as [|b l IH]; intros a; simpl.
  - split; [lia|]. split; [|by left]. by intros x ?%elem_of_nil.
  - destruct (IH (a `max` b)%nat) as (Hle & Hall & Hin).
    split; [lia|]. split.
    + intros x [->|Hx]%elem_of_cons; [lia|by apply Hall].
    + destruct Hin as [Heq|Hin]; [|right; by right].
      rewrite Heq.
      destruct (Nat.max_spec a b) as [[_ ->]|[_ ->]]; [right; by left|by left].
Qed.

Lemma py_min_spec (l : list nat) :
  l ≠ [] -> py_min l ∈ l /\ forall x, x ∈ l -> (py_min l <= x)%nat.
Proof.
  destruct l as [|a l]; [done|]. intros _. simpl.
  destruct (foldl_min_spec l a) as (Hle & Hall & Hin). split.
  - destruct Hin as [->|Hin]; [by left|by right].
  - intros x [->|Hx]%elem_of_cons; [done|by apply Hall].
Qed.

Lemma py_max_spec (l : list nat) :
  l ≠ [] -> py_max l ∈ l /\ forall x, x ∈ l -> (x <= py_max l)%nat.
Proof.
  destruct l as [|a l]; [done|]. intros _. simpl.
  destruct (foldl_max_spec l a) as (Hle & Hall & Hin). split.
  - destruct Hin as [->|Hin]; [by left|by right].
  - intros x [->|Hx]%elem_of_cons; [done|by apply Hall].
Qed.

Section HeaderScanCorrect.
Context {R : Runtime}.
Variable is_date_like : cell -> bool.
Variable threshold : nat.
Variable is_total_caption : cell -> bool.
Hypothesis threshold_pos : (0 < threshold)%nat.

Lemma date_cols_from_length (c : nat) (row : Row) :
  length (date_cols_from is_date_like c row) = count_date_like is_date_like row.
Proof.
  revert c. unfold count_date_like.
  induction row as [|v row IH]; intros c; simpl; [done|].
  destruct (is_date_like v); simpl; by rewrite IH.
Qed.

Lemma date_cols_from_spec (c : nat) (row : Row) (x : nat) :
  x ∈ date_cols_from is_date_like c row <->
  (c <= x)%nat /\ date_like_at is_date_like row (x - c).
Proof.
  revert c. induction row as [|v row IH]; intros c; simpl.
  - split; [by intros ?%elem_of_nil|]. by intros (_ & w & Hw & _).
  - assert (x ∈ date_cols_from is_date_like (S c) row <->
            (c < x)%nat /\ date_like_at is_date_like row (x - S c)) as IH'.
    { rewrite IH. split; intros [? ?]; split; first [lia|done]. }
    assert (forall P : Prop, (c < x)%nat ->
              date_like_at is_date_like (v :: row) (x - c) <->
              date_like_at is_date_like row (x - S c)) as Hshift.
    { intros _ Hlt. unfold date_like_at.
      replace (x - c)%nat with (S (x - S c)) by lia. done. }
    destruct (is_date_like v) eqn:Hv.
    + rewrite elem_of_cons, IH'. split.
      * intros [->|[Hlt Hd]].
        -- split; [lia|]. exists v. by rewrite Nat.sub_diag.
        -- split; [lia|]. by apply (Hshift True).
      * intros [Hle Hd]. destruct (decide (x = c)) as [->|Hne]; [by left|].
        right. split; [lia|]. apply (Hshift True); [lia|done].
    + rewrite IH'. split.
      * intros [Hlt Hd]. split; [lia|]. by apply (Hshift True).
      * intros [Hle Hd]. destruct (decide (x = c)) as [->|Hne].
        -- destruct Hd as (w & Hw & Hdw). rewrite Nat.sub_diag in Hw.
           simpl in Hw. congruence.
        -- split; [lia|]. apply (Hshift True); [lia|done].
Qed.

Lemma find_total_spec (c : nat) (cells : Row) :
  (find_total is_total_caption c cells = -1 /\
   forall i v, cells !! i = Some v -> is_total_caption v = false)
  \/
  (exists i v,
     find_total is_total_caption c cells = Z.of_nat (c + i) /\
     cells !! i = Some v /\ is_total_caption v = true /\
     forall j v', (j < i)%nat -> cells !! j = Some v' ->
                  is_total_caption v' = false).
Proof.
  revert c. induction cells as [|w cells IH]; intros c; simpl.
  - left. split; [done|]. by intros [|i] v.
  - destruct (is_total_caption w) eqn:Hw.
    + right. exists 0%nat, w. rewrite Nat.add_0_r.
      repeat split; [done|]. intros j v' Hj. lia.
    + destruct (IH (S c)) as [[Hnone Hall]|(i & v & Hres & Hlook & Hv & Hbefore)].
      * left. split; [done|]. intros [|i] v; simpl; [by intros [= <-]|apply Hall].
      * right. exists (S i), v. rewrite Hres.
        split; [f_equal; lia|]. repeat split; [done..|].
        intros [|j] v' Hj; simpl; [by intros [= <-]|].
        apply Hbefore. lia.
Qed.

Lemma total_located_spec (row : Row) (last : nat) :
  total_located is_total_caption row last
    (find_total is_total_caption (last + 1) (drop (last + 1) row)).
Proof.
  destruct (find_total_spec (last + 1) (drop (last + 1) row))
    as [[-> Hall]|(i & v & -> & Hlook & Hv & Hbefore)].
  - left. split; [done|]. intros c v Hc Hlook.
    apply (Hall (c - (last + 1))%nat).
    rewrite lookup_drop. by replace (last + 1 + (c - (last + 1)))%nat with c by lia.
  - right. exists (last + 1 + i)%nat, v. rewrite lookup_drop in Hlook.
    repeat split; [lia|done..|].
    intros c' v' Hc' Hlook'.
    apply (Hbefore (c' - (last + 1))%nat); [lia|].
    rewrite lookup_drop. by replace (last + 1 + (c' - (last + 1)))%nat with c' by lia.
Qed.

Lemma scan_header_spec (pre rows : DataFrame) :
  (forall r row, pre !! r = Some row ->
                 (count_date_like is_date_like row < threshold)%nat) ->
  header_located is_date_like threshold is_total_caption (pre ++ rows)
    (scan_header is_date_like threshold is_total_caption (length pre) rows).
Proof.
  revert pre. induction rows as [|row rows IH]; intros pre Hpre; simpl.
  - rewrite app_nil_r. by constructor.
  - rewrite date_cols_from_length.
    destruct (threshold <=? _)%nat eqn:Hth.
    + apply Nat.leb_le in Hth.
      set (dc := date_cols_from is_date_like 0 row).
      assert (dc ≠ []) as Hne.
      { intros E. pose proof (date_cols_from_length 0 row) as Hlen.
        fold dc in Hlen. rewrite E in Hlen. simpl in Hlen. lia. }
      destruct (py_min_spec dc Hne) as [Hmin_in Hmin].
      destruct (py_max_spec dc Hne) as [Hmax_in Hmax].
      assert (forall x, x ∈ dc <-> date_like_at is_date_like row x) as Hdc.
      { intros x. unfold dc. rewrite date_cols_from_spec, Nat.sub_0_r.
        split; [by intros [_ ?]|]. intros ?. split; [lia|done]. }
      apply header_at with (row := row).
      * by rewrite lookup_app_r, Nat.sub_diag.
      * done.
      * intros r' row' Hr' Hlook. apply (Hpre r').
        by rewrite lookup_app_l in Hlook.
      * by apply Hdc.
      * intros c Hc. by apply Hmin, Hdc.
      * by apply Hdc.
      * intros c Hc. by apply Hmax, Hdc.
      * apply total_located_spec.
    + apply Nat.leb_gt in Hth.
      specialize (IH (pre ++ [row])).
      rewrite length_app, <- app_assoc in IH. simpl in IH.
      rewrite Nat.add_1_r in IH. apply IH.
      intros r row' Hlook. apply lookup_app_Some in Hlook as [Hlook|[_ Hlook]].
      * by apply (Hpre r).
      * apply list_lookup_singleton_Some in Hlook as [_ <-]. done.
Qed.

End HeaderScanCorrect.

Lemma backup_caption_total_text {R : Runtime} {L : RuntimeLaws R} (v : cell) :
  Backup.is_total_caption v = total_text v.
Proof.
  destruct v as [| | | |s|]; simpl; try done.
  unfold pystr_eqb. rewrite orb_false_r.
  replace (bool_decide (str_upper (strip s) = py "TOTAL ")) with false;
    [by rewrite orb_false_r|].
  symmetry. apply bool_decide_eq_false. intros E.
  pose proof (upper_no_trailing_space s) as H. by rewrite E in H.
Qed.

(** The test for the totals caption can be replaced by one that agrees
    with it on every cell. *)
Lemma header_located_ext {R : Runtime} (is_date_like : cell -> bool)
    (threshold : nat) (p q : cell -> bool) (df : DataFrame) (res : Z * Z * Z * Z) :
  (forall v, p v = q v) ->
  header_located is_date_like threshold p df res ->
  header_located is_date_like threshold q df res.
Proof.
  intros Hpq [Hnone|r row first last tot Hrow Hth Hbefore Hf Hfmin Hl Hlmax Htot].
  - by constructor.
  - apply header_at with (row := row); try done.
    destruct Htot as [[-> Hall]|(c & v & -> & Hc & Hv & Hp & Hall)].
    + left. split; [done|]. intros c v Hc Hv. rewrite <- Hpq. by eapply Hall.
    + right. exists c, v. rewrite <- Hpq. repeat split; try done.
      intros c' v' Hc' Hv'. rewrite <- Hpq. by eapply Hall.
Qed.

(** C1. In both scripts the header locator returns the first row, from
    the top, that has at least the threshold of date-like cells (3 in the
    backup script, 5 in the other), with the least and the greatest column
    of its date-like cells and the first column to their right whose text,
    trimmed and upper-cased, is TOTAL, or [-1] for that column when there is
    none; a grid without such a row gives [(-1, -1, -1, -1)]. *)
Theorem find_date_header_row_spec {R : Runtime} {L : RuntimeLaws R}
    (df : DataFrame) :
  header_located Backup.is_date_like 3 total_text df
    (Backup.find_date_header_row df) /\
  header_located Normalize.is_date_like 5 total_text df
    (Normalize.find_date_header_row df).
Proof.
  split.
  - apply (header_located_ext _ _ Backup.is_total_caption);
      [apply backup_caption_total_text|].
    apply (scan_header_spec Backup.is_date_like 3 Backup.is_total_caption
             ltac:(lia) [] df).
    by intros [|r] row.
  - apply (scan_header_spec Normalize.is_date_like 5 Normalize.is_total_caption
             ltac:(lia) [] df).
    by intros [|r] row.
Qed.

Lemma find_date_header_row_sample :
  header_located (R := Sample.runtime) Backup.is_date_like 3 total_text
    Sample.daily (1, 2, 6, 7) /\
  header_located (R := Sample.runtime) Normalize.is_date_like 5 total_text
    Sample.daily (1, 2, 6, 7).
Proof. exact (find_date_header_row_spec (L := sample_laws) Sample.daily). Defined.

(** ** The loops of one row *)

Lemma bind_Ok {A B} (a : A) (k : A -> result B) : (Ok a ≫= k) = k a.
Proof. reflexivity. Qed.

Lemma bind_Ok_inv {A B} (m : result A) (k : A -> result B) (b : B) :
  (m ≫= k) = Ok b -> exists a, m = Ok a /\ k a = Ok b.
Proof. destruct m as [a|e]; [|done]. intros H. by exists a. Qed.

Section RowLoops.
Context {R : Runtime}.
Implicit Types (row : Row) (records : list OutputRecord).

Lemma iloc_Some row (c : nat) (v : cell) : row !! c = Some v -> iloc row c = Ok v.
Proof. unfold iloc. by intros ->. Qed.

Lemma iloc_None row (c : nat) : row !! c = None -> iloc row c = Raise IndexError.
Proof. unfold iloc. by intros ->. Qed.

Lemma find_label_step row (c : nat) (cs : list nat) (label : option pystr) (v : cell) :
  row !! c = Some v ->
  Backup.find_label row (c :: cs) label = Backup.find_label row cs (label_step label v).
Proof.
  intros Hv. simpl. rewrite (iloc_Some _ _ _ Hv). simpl.
  unfold label_step. destruct v; simpl; try done. by case_bool_decide.
Qed.

(** The label loop reads the columns [a, a + n) from left to right and
    fails exactly when they are not all there. *)
Lemma find_label_seq row (n a : nat) (label : option pystr) :
  (a <= length row)%nat ->
  Backup.find_label row (seq a n) label =
    if (a + n <=? length row)%nat
    then Ok (foldl label_step label (take n (drop a row)))
    else Raise IndexError.
Proof.
  revert a label. induction n as [|n IH]; intros a label Ha.
  - simpl. rewrite Nat.add_0_r. by destruct (Nat.leb_spec a (length row)); [|lia].
  - change (seq a (S n)) with (a :: seq (S a) n).
    destruct (row !! a) as [v|] eqn:Hv.
    + pose proof (lookup_lt_Some _ _ _ Hv) as Hlt.
      rewrite (find_label_step _ _ _ _ _ Hv), IH by lia.
      replace (S a + n)%nat with (a + S n)%nat by lia.
      by rewrite (drop_S _ _ _ Hv).
    + pose proof (lookup_ge_None_1 _ _ Hv) as Hge.
      simpl. rewrite (iloc_None _ _ Hv). simpl.
      by destruct (Nat.leb_spec (a + S n) (length row)); [lia|].
Qed.

Lemma find_label_char row (first_c : nat) :
  Backup.find_label row (seq 0 first_c) None =
    if (first_c <=? length row)%nat then Ok (row_label first_c row)
    else Raise IndexError.
Proof. by rewrite find_label_seq by lia. Qed.

Lemma daily_records_cons (name : pystr) (sec metric : option pystr) row
    (c : nat) (d : Timestamp) (items : list (nat * Timestamp)) (v : cell) :
  row !! c = Some v ->
  daily_records name sec metric row ((c, d) :: items) =
    (if emits v then [make_record name sec metric (Some d) false v] else [])
    ++ daily_records name sec metric row items.
Proof.
  intros Hv. unfold daily_records. simpl. rewrite Hv. by destruct (emits v).
Qed.

(** The daily loop appends [daily_records] and fails exactly when a date
    column is missing from the row. *)
Lemma emit_daily_char (name : pystr) (sec metric : option pystr) row
    (items : list (nat * Timestamp)) records :
  Backup.emit_daily name sec metric row items records =
    if forallb (fun cd : nat * Timestamp => (cd.1 <? length row)%nat) items
    then Ok (records ++ daily_records name sec metric row items)
    else Raise IndexError.
Proof.
  revert records. induction items as [|[c d] items IH]; intros records.
  - simpl. by rewrite app_nil_r.
  - cbn [Backup.emit_daily forallb fst]. destruct (row !! c) as [v|] eqn:Hv.
    + pose proof (lookup_lt_Some _ _ _ Hv) as Hlt.
      apply Nat.ltb_lt in Hlt. rewrite Hlt, (iloc_Some _ _ _ Hv).
      cbn [andb mbind result_bind].
      rewrite (daily_records_cons _ _ _ _ _ _ _ _ Hv).
      unfold emits, nonempty_cell.
      destruct (is_missing v); [apply IH|]. cbn [negb andb].
      case_bool_decide as Hs.
      * rewrite bool_decide_eq_false_2 by (by intros []). apply IH.
      * rewrite bool_decide_eq_true_2 by done. cbn [andb].
        destruct (Backup.is_date_like v); [apply IH|]. cbn [negb].
        unfold make_record.
        destruct (Backup.parse_number (CStr (strip (str v)))) as [val pct].
        rewrite IH. simpl. by rewrite <- app_assoc.
    + pose proof (lookup_ge_None_1 _ _ Hv) as Hge.
      apply Nat.ltb_ge in Hge. rewrite Hge, (iloc_None _ _ Hv). done.
Qed.

Lemma emit_total_ok (name : pystr) (sec metric : option pystr) row
    (total_c : Z) records :
  -1 <= total_c ->
  Backup.emit_total name sec metric row total_c records =
    Ok (records ++ total_records name sec metric row total_c).
Proof.
  intros Hc. unfold Backup.emit_total, total_records.
  destruct (Z.eqb_spec total_c (-1)) as [->|Hne]; simpl.
  { by rewrite app_nil_r. }
  destruct (Z.leb_spec 0 total_c); [|lia].
  destruct (Z.ltb_spec total_c (Z.of_nat (length row))) as [Hlt|Hge].
  - unfold iloc_z. destruct (Z.leb_spec 0 total_c); [|lia].
    destruct (lookup_lt_is_Some_2 row (Z.to_nat total_c)) as [tv Htv]; [lia|].
    rewrite Htv, (iloc_Some _ _ _ Htv). simpl.
    unfold nonempty_cell. destruct (negb _ && _); [|by rewrite app_nil_r].
    unfold make_record. simpl.
    by destruct (Backup.parse_number_str (strip (str tv))).
  - rewrite lookup_ge_None_2 by lia. by rewrite app_nil_r.
Qed.

(** One turn of the row loop, on a row that has the columns it reads. *)
Lemma process_row_ok (name : pystr) (first_c : nat)
    (col2date : list (nat * Timestamp)) (total_c : Z)
    (cur : option pystr) records row :
  row_in_range first_c col2date row = true ->
  -1 <= total_c ->
  Backup.process_row name first_c col2date total_c (cur, records) row =
    let label := row_label first_c row in
    let sec := Backup.update_section label cur in
    let metric := Backup.metric_of label in
    Ok (sec, records ++ daily_records name sec metric row col2date
                     ++ total_records name sec metric row total_c).
Proof.
  intros [Hfirst Hcols]%andb_prop Htot. unfold Backup.process_row.
  rewrite find_label_char, Hfirst. simpl.
  rewrite emit_daily_char, Hcols. simpl.
  rewrite emit_total_ok by done. simpl. by rewrite <- app_assoc.
Qed.

End RowLoops.

(** ** The label of a row *)

Lemma is_label_cell_inv {R : Runtime} (v : cell) :
  is_label_cell v = true -> exists s, v = CStr s /\ strip s ≠ [].
Proof.
  destruct v as [| | | |s|]; simpl; try done.
  intros H%bool_decide_eq_true. by exists s.
Qed.

(** Folding [label_step] over some cells keeps the text of the last label
    cell. *)
Lemma foldl_label_step_spec {R : Runtime} (cells : Row) :
  match foldl label_step None cells with
  | Some l =>
      exists c s, cells !! c = Some (CStr s) /\ strip s ≠ [] /\ l = strip s /\
        forall c' v, (c < c')%nat -> cells !! c' = Some v -> is_label_cell v = false
  | None => forall c v, cells !! c = Some v -> is_label_cell v = false
  end.
Proof.
  induction cells as [|v cells IH] using rev_ind; [by intros [|c] v|].
  rewrite foldl_app. simpl. unfold label_step at 1.
  destruct (is_label_cell v) eqn:Hv.
  - destruct (is_label_cell_inv v Hv) as (s & -> & Hs).
    exists (length cells), s. split; [by rewrite lookup_app_r, Nat.sub_diag|].
    repeat split; [done|]. intros c' w Hc' Hw.
    apply lookup_lt_Some in Hw. rewrite length_app in Hw. simpl in Hw. lia.
  - assert (forall c w, (length cells <= c)%nat ->
              (cells ++ [v]) !! c = Some w -> is_label_cell w = false) as Hlast.
    { intros c w Hc Hw. rewrite lookup_app_r in Hw by done.
      apply list_lookup_singleton_Some in Hw as [_ <-]. done. }
    destruct (foldl label_step None cells) as [l|].
    + destruct IH as (c & s & Hc & Hs & -> & Hafter).
      exists c, s. split; [by apply lookup_app_l_Some|].
      repeat split; [done|]. intros c' w Hc' Hw.
      destruct (decide (c' < length cells)%nat) as [Hlt|Hge].
      * rewrite lookup_app_l in Hw by done. by apply (Hafter c').
      * apply (Hlast c'); [lia|done].
    + intros c w Hw. destruct (decide (c < length cells)%nat) as [Hlt|Hge].
      * rewrite lookup_app_l in Hw by done. by apply (IH c).
      * apply (Hlast c); [lia|done].
Qed.

(** C7, as the code has it. The label of a row is the trimmed text of the
    right-most cell, among the columns left of the date span, that is a
    string with something other than white space in it; cells of other
    types are passed over, and the label is [None] when no such cell
    exists. *)
Theorem find_label_rightmost_text {R : Runtime} (row : Row) (first_c : nat) :
  (first_c <= length row)%nat ->
  exists label,
    Backup.find_label row (seq 0 first_c) None = Ok label /\
    match label with
    | Some l =>
        exists c s,
          (c < first_c)%nat /\ row !! c = Some (CStr s) /\ strip s ≠ [] /\
          l = strip s /\
          forall c' v, (c < c' < first_c)%nat -> row !! c' = Some v ->
                       is_label_cell v = false
    | None =>
        forall c v, (c < first_c)%nat -> row !! c = Some v ->
                    is_label_cell v = false
    end.
Proof.
  intros Hfirst. exists (row_label first_c row). split.
  { rewrite find_label_char. by apply Nat.leb_le in Hfirst as ->. }
  unfold row_label. pose proof (foldl_label_step_spec (take first_c row)) as H.
  destruct (foldl label_step None (take first_c row)) as [l|].
  - destruct H as (c & s & Hc & Hs & -> & Hafter).
    apply lookup_take_Some in Hc as [Hc Hlt].
    exists c, s. repeat split; [done..|].
    intros c' v [Hc1 Hc2] Hv. apply (Hafter c'); [done|].
    by apply lookup_take_Some.
  - intros c v Hc Hv. apply (H c). by apply lookup_take_Some.
Qed.

Lemma find_label_rightmost_text_sample :
  exists label,
    Backup.find_label (R := Sample.runtime) Sample.two_labels (seq 0 2) None
      = Ok label /\
    match label with
    | Some l =>
        exists c s,
          (c < 2)%nat /\ Sample.two_labels !! c = Some (CStr s) /\
          strip s ≠ [] /\ l = strip s /\
          forall c' v, (c < c' < 2)%nat -> Sample.two_labels !! c' = Some v ->
                       is_label_cell v = false
    | None =>
        forall c v, (c < 2)%nat -> Sample.two_labels !! c = Some v ->
                    is_label_cell v = false
    end.
Proof.
  apply (find_label_rightmost_text (R := Sample.runtime) Sample.two_labels 2).
  simpl. lia.
Defined.

(** C7, as stated, fails: on a row that reads RESTAURANT, COMIDA left of
    the dates, the loop ends with COMIDA, and the left-most cell that holds
    a value is RESTAURANT. *)
Lemma label_is_not_leftmost :
  Backup.find_label (R := Sample.runtime) Sample.two_labels (seq 0 2) None
    = Ok (Some (py "COMIDA")) /\
  leftmost_value (R := Sample.runtime) 2 Sample.two_labels
    = Some (py "RESTAURANT") /\
  pystr_eqb (py "COMIDA") (py "RESTAURANT") = false.
Proof. by vm_compute. Qed.

(** ** The records of one row *)

Section RowRecords.
Context {R : Runtime}.
Implicit Types (row : Row) (col2date : list (nat * Timestamp)).

Lemma daily_records_Forall (P : OutputRecord -> Prop)
    (name : pystr) (sec metric : option pystr) row col2date :
  (forall c d v, (c, d) ∈ col2date -> row !! c = Some v -> emits v = true ->
                 P (make_record name sec metric (Some d) false v)) ->
  Forall P (daily_records name sec metric row col2date).
Proof.
  intros HP. apply Forall_forall. intros r Hr.
  apply list_elem_of_omap in Hr as ([c d] & Hin & Hr). simpl in Hr.
  destruct (row !! c) as [v|] eqn:Hv; [|done].
  destruct (emits v) eqn:He; [|done]. injection Hr as <-. by eapply HP.
Qed.

Lemma daily_records_length (name : pystr) (sec metric : option pystr)
    row col2date :
  length (daily_records name sec metric row col2date) =
  length (List.filter
            (fun cd : nat * Timestamp =>
               match row !! cd.1 with
               | Some v => emits v
               | None => false
               end) col2date).
Proof.
  induction col2date as [|[c d] col2date IH]; [done|].
  cbn [List.filter fst]. destruct (row !! c) as [v|] eqn:Hv.
  - rewrite (daily_records_cons _ _ _ _ _ _ _ _ Hv).
    destruct (emits v); simpl; by rewrite IH.
  - rewrite <- IH. unfold daily_records. simpl. by rewrite Hv.
Qed.

Lemma total_records_cases (name : pystr) (sec metric : option pystr)
    row (total_c : Z) :
  total_records name sec metric row total_c = [] \/
  exists tv,
    0 <= total_c /\ row !! Z.to_nat total_c = Some tv /\
    nonempty_cell tv = true /\
    total_records name sec metric row total_c =
      [make_record name sec metric None true tv].
Proof.
  unfold total_records. destruct (Z.leb_spec 0 total_c); [|by left].
  destruct (row !! Z.to_nat total_c) as [tv|]; [|by left].
  destruct (nonempty_cell tv) eqn:Htv; [|by left].
  right. by exists tv.
Qed.

End RowRecords.

(** C2, as the code has it. Processing a row that has the columns of the
    map appends one record for each item of the column-to-date map whose
    cell holds a value and is not itself date-like, each with
    [is_total = False] and a date, and after them at most one record for the
    totals column, with [date] null and [is_total = True]. *)
Theorem process_row_records {R : Runtime} (name : pystr) (first_c : nat)
    (col2date : list (nat * Timestamp)) (total_c : Z)
    (cur : option pystr) (records : list OutputRecord) (row : Row) :
  row_in_range first_c col2date row = true ->
  -1 <= total_c ->
  exists sec metric,
    let daily := daily_records name sec metric row col2date in
    let total := total_records name sec metric row total_c in
    Backup.process_row name first_c col2date total_c (cur, records) row
      = Ok (sec, records ++ daily ++ total) /\
    length daily =
      length (List.filter
                (fun cd : nat * Timestamp =>
                   match row !! cd.1 with
                   | Some v => nonempty_cell v && negb (Backup.is_date_like v)
                   | None => false
                   end) col2date) /\
    Forall (fun r => is_total r = false /\ is_Some (date r)) daily /\
    (length total <= 1)%nat /\
    Forall (fun r => date r = None /\ is_total r = true) total.
Proof.
  intros Hrange Htot.
  exists (Backup.update_section (row_label first_c row) cur),
         (Backup.metric_of (row_label first_c row)).
  cbv zeta. split; [by rewrite process_row_ok|].
  split; [apply daily_records_length|].
  split; [apply daily_records_Forall; by eauto|].
  destruct (total_records_cases name
              (Backup.update_section (row_label first_c row) cur)
              (Backup.metric_of (row_label first_c row)) row total_c)
    as [->|(tv & _ & _ & _ & ->)]; simpl.
  - split; [lia|constructor].
  - split; [lia|]. by repeat constructor.
Qed.

Lemma process_row_records_sample :
  exists sec metric,
    let daily := daily_records (R := Sample.runtime) (py "daily.csv")
                   sec metric Sample.restated Sample.dates in
    let total := total_records (R := Sample.runtime) (py "daily.csv")
                   sec metric Sample.restated 7 in
    Backup.process_row (py "daily.csv") 2 Sample.dates 7 (None, [])
      Sample.restated
      = Ok (sec, [] ++ daily ++ total) /\
    length daily =
      length (List.filter
                (fun cd : nat * Timestamp =>
                   match Sample.restated !! cd.1 with
                   | Some v => nonempty_cell v && negb (Backup.is_date_like v)
                   | None => false
                   end) Sample.dates) /\
    Forall (fun r => is_total r = false /\ is_Some (date r)) daily /\
    (length total <= 1)%nat /\
    Forall (fun r => date r = None /\ is_total r = true) total.
Proof.
  apply (process_row_records (R := Sample.runtime) (py "daily.csv") 2
           Sample.dates 7 None [] Sample.restated); [reflexivity|lia].
Defined.

(** C2, as stated, fails: a row that restates a date in a mapped column
    has two mapped cells that hold a value and gives one record. *)
Lemma restated_date_gives_no_record :
  Backup.process_row (R := Sample.runtime) (py "daily.csv") 2 Sample.dates 7
    (None, []) Sample.restated
  = Ok (None,
        [make_record (py "daily.csv") None (Some (py "COMIDA"))
           (Some ((2025, 1, 2) : @Timestamp Sample.runtime)) false
           (Sample.txt "20")]) /\
  count_nonempty (R := Sample.runtime) Sample.restated Sample.dates = 2%nat.
Proof. by vm_compute. Qed.

(** C6. When a totals column was located and the cell of the row in that
    column holds a value, processing the row appends, after the daily
    records (however many there are, each with [is_total = False]), exactly
    one record with [date] null and [is_total = True]; it carries the
    section and the metric label of the daily records of the row, and the
    trimmed text of the cell. *)
Theorem process_row_total {R : Runtime} (name : pystr) (first_c : nat)
    (col2date : list (nat * Timestamp)) (total_c : Z)
    (cur : option pystr) (records : list OutputRecord) (row : Row) (tv : cell) :
  row_in_range first_c col2date row = true ->
  0 <= total_c ->
  row !! Z.to_nat total_c = Some tv ->
  nonempty_cell tv = true ->
  exists sec metric daily t,
    Backup.process_row name first_c col2date total_c (cur, records) row
      = Ok (sec, records ++ daily ++ [t]) /\
    Forall (fun r => is_total r = false /\ section r = sec /\
                     metric_label r = metric) daily /\
    is_total t = true /\ date t = None /\
    section t = sec /\ metric_label t = metric /\
    value_raw t = strip (str tv).
Proof.
  intros Hrange Htot Htv Hne.
  exists (Backup.update_section (row_label first_c row) cur),
         (Backup.metric_of (row_label first_c row)).
  eexists _, _. split.
  - rewrite process_row_ok by (done || lia). cbv zeta.
    unfold total_records at 1. destruct (Z.leb_spec 0 total_c); [|lia].
    by rewrite Htv, Hne.
  - split; [by apply daily_records_Forall|done].
Qed.

Lemma process_row_total_sample :
  exists sec metric daily t,
    Backup.process_row (R := Sample.runtime) (py "daily.csv") 2 Sample.dates 7
      (None, []) Sample.two_labels
      = Ok (sec, [] ++ daily ++ [t]) /\
    Forall (fun r => is_total r = false /\ section r = sec /\
                     metric_label r = metric) daily /\
    is_total t = true /\ date t = None /\
    section t = sec /\ metric_label t = metric /\
    value_raw t = strip (str (Sample.txt "30")).
Proof.
  apply (process_row_total (R := Sample.runtime) (py "daily.csv") 2
           Sample.dates 7 None [] Sample.two_labels (Sample.txt "30"));
    [reflexivity|lia|reflexivity|reflexivity].
Defined.

(** ** The current section *)

Section CurrentSection.
Context {R : Runtime}.
Implicit Types (row : Row) (col2date : list (nat * Timestamp)).

Lemma update_section_alt (label cur : option pystr) :
  Backup.update_section label cur =
    match section_of_label label with
    | Some canonical => Some canonical
    | None => cur
    end.
Proof. destruct label as [l|]; simpl; [|done]. by destruct (_ !! _). Qed.

Lemma row_records_section (name : pystr) (sec metric : option pystr)
    row col2date (total_c : Z) :
  Forall (fun r => section r = sec)
    (daily_records name sec metric row col2date
     ++ total_records name sec metric row total_c).
Proof.
  apply Forall_app. split; [by apply daily_records_Forall|].
  destruct (total_records_cases name sec metric row total_c)
    as [->|(tv & _ & _ & _ & ->)]; by repeat constructor.
Qed.

(** Rows without a section label leave the section as it is, and their
    records carry it. *)
Lemma process_rows_keep_section (name : pystr) (first_c : nat) col2date
    (total_c : Z) (cur : option pystr) (records : list OutputRecord)
    (rows : DataFrame) :
  Forall (fun row => row_in_range first_c col2date row = true /\
                     section_of_label (row_label first_c row) = None) rows ->
  -1 <= total_c ->
  exists new,
    Backup.process_rows name first_c col2date total_c (cur, records) rows
      = Ok (cur, records ++ new) /\
    Forall (fun r => section r = cur) new.
Proof.
  intros Hrows Htot. revert records.
  induction Hrows as [|row rows [Hrange Hlabel] _ IH]; intros records.
  - exists []. by rewrite app_nil_r.
  - cbn [Backup.process_rows]. rewrite process_row_ok by done. cbv zeta.
    rewrite bind_Ok, update_section_alt, Hlabel.
    destruct (IH (records ++
                  daily_records name cur
                    (Backup.metric_of (row_label first_c row)) row col2date
                  ++ total_records name cur
                    (Backup.metric_of (row_label first_c row)) row total_c))
      as (new & -> & Hnew).
    eexists. split; [by rewrite <- app_assoc|].
    apply Forall_app. split; [apply row_records_section|done].
Qed.

(** What [normalize_frame] returns are the records of the row loop, run
    from the state [(None, [])] on the rows below the header. *)
Lemma normalize_frame_rows (name : pystr) (df : DataFrame) (t : Table) :
  Backup.normalize_frame name df = Ok t ->
  let hdr := Z.to_nat (Backup.find_date_header_row df).1.1.1 in
  exists (first_c : nat) (cs : list nat) col2date (total_c : Z)
         (final : option pystr),
    Backup.fill_col2date df hdr cs [] = Ok col2date /\
    Backup.process_rows name first_c col2date total_c (None, [])
      (drop (S hdr) df) = Ok (final, rows t).
Proof.
  unfold Backup.normalize_frame.
  destruct (Backup.find_date_header_row df) as [[[hdr first_c] last_c] total_c].
  destruct (hdr <? 0); [done|].
  destruct (Backup.fill_col2date _ _ _ _) as [col2date|] eqn:Hfill; [|done].
  rewrite bind_Ok.
  destruct (Backup.process_rows _ _ _ _ _ _) as [[final records]|] eqn:Hrows;
    [|done].
  rewrite bind_Ok. intros [= <-]. by eexists _, _, _, _, _.
Qed.

End CurrentSection.

Lemma collect_frames_each {R : Runtime} {FS : FileSystem}
    (sheet : pystr) (files : list pystr) (frames out : list Table) :
  Backup.collect_frames sheet files frames = Ok out ->
  exists tables,
    out = frames ++ tables /\
    Forall2 (fun f t => Backup.normalize_file f sheet = Ok t) files tables.
Proof.
  revert frames. induction files as [|f files IH]; intros frames; simpl.
  - intros [= <-]. exists []. by rewrite app_nil_r.
  - intros (t & Ht & Hrest)%bind_Ok_inv.
    destruct (IH _ Hrest) as (tables & -> & Hall).
    exists (t :: tables). split; [by rewrite <- app_assoc|by constructor].
Qed.

(** C5. The current section is a state of the row loop of one file.
    (1) A row sets it to the canonical name when its label is a key of
    the section table, and leaves it as it is otherwise; the rows that
    follow without a section label of their own leave it unchanged, and
    every record of the row and of those rows carries it.
    (2) [normalize_file] starts the loop from [None] for every file.
    (3) In [main] each file gives the table [normalize_file] returns for
    that file alone: nothing is carried over from one file to the next. *)
Theorem current_section_state {R : Runtime} {FS : FileSystem} :
  (forall (name : pystr) (first_c : nat) (col2date : list (nat * Timestamp))
          (total_c : Z) (cur : option pystr) (records : list OutputRecord)
          (row : Row) (rows : DataFrame),
     row_in_range first_c col2date row = true ->
     Forall (fun row' => row_in_range first_c col2date row' = true /\
                         section_of_label (row_label first_c row') = None)
            rows ->
     -1 <= total_c ->
     let sec := match section_of_label (row_label first_c row) with
                | Some canonical => Some canonical
                | None => cur
                end in
     exists new,
       Backup.process_rows name first_c col2date total_c (cur, records)
         (row :: rows) = Ok (sec, records ++ new) /\
       Forall (fun r => section r = sec) new)
  /\
  (forall (name : pystr) (df : DataFrame) (t : Table),
     Backup.normalize_frame name df = Ok t ->
     exists (hdr first_c : nat) (col2date : list (nat * Timestamp))
            (total_c : Z) (final : option pystr),
       Backup.process_rows name first_c col2date total_c (None, [])
         (drop (S hdr) df) = Ok (final, rows t))
  /\
  (forall (sheet : pystr) (files : list pystr) (frames out : list Table),
     Backup.collect_frames sheet files frames = Ok out ->
     exists tables,
       out = frames ++ tables /\
       Forall2 (fun f t => Backup.normalize_file f sheet = Ok t) files tables).
Proof.
  split; [|split].
  - intros name first_c col2date total_c cur records row rows Hrow Hrows Htot sec.
    cbn [Backup.process_rows]. rewrite process_row_ok by done. cbv zeta.
    rewrite bind_Ok, update_section_alt. fold sec.
    destruct (process_rows_keep_section name first_c col2date total_c sec
                (records ++
                 daily_records name sec
                   (Backup.metric_of (row_label first_c row)) row col2date
                 ++ total_records name sec
                   (Backup.metric_of (row_label first_c row)) row total_c)
                rows Hrows Htot) as (new & -> & Hnew).
    eexists. split; [by rewrite <- app_assoc|].
    apply Forall_app. split; [apply row_records_section|done].
  - intros name df t Ht.
    destruct (normalize_frame_rows name df t Ht)
      as (first_c & cs & col2date & total_c & final & _ & Hrows).
    by eexists _, first_c, col2date, total_c, final.
  - apply collect_frames_each.
Qed.

(** The rows RESTAURANT (a title), COMIDA and BEBIDA of the sample sheet:
    the two data rows inherit the section of the title row. *)
Lemma current_section_state_sample :
  (exists new,
     Backup.process_rows (R := Sample.runtime) (py "daily.csv") 2 Sample.dates 7
       (None, []) (drop 2 Sample.daily)
       = Ok (Some (py "RESTAURANT"), [] ++ new) /\
     Forall (fun r => section r = Some (py "RESTAURANT")) new)
  /\
  (exists (hdr first_c : nat) (col2date : list (nat * Timestamp))
          (total_c : Z) (final : option pystr),
     Backup.process_rows (py "daily.csv") first_c col2date total_c (None, [])
       (drop (S hdr) Sample.daily) = Ok (final, rows Sample.daily_table))
  /\
  (exists tables,
     [Sample.daily_table; Sample.daily_table] = [] ++ tables /\
     Forall2 (fun f t => Backup.normalize_file (FS := Sample.files) f (py "Daily")
                         = Ok t)
       [py "daily.csv"; py "daily.csv"] tables).
Proof.
  destruct (current_section_state (R := Sample.runtime) (FS := Sample.files))
    as (Hrows & Hreset & Hfiles).
  split; [|split].
  - apply (Hrows (py "daily.csv") 2%nat Sample.dates 7 None []
             (Sample.txt "RESTAURANT" :: replicate 7 CNaN)
             (drop 3 Sample.daily)); [reflexivity| |lia].
    repeat constructor.
  - by apply (Hreset (py "daily.csv") Sample.daily Sample.daily_table).
  - by apply (Hfiles (py "Daily") [py "daily.csv"; py "daily.csv"] []).
Defined.

(** ** Dates of the records *)

Section RecordDates.
Context {R : Runtime}.
Implicit Types (row : Row) (col2date : list (nat * Timestamp)).

Lemma dict_set_elem_of {V} (c c0 : nat) (d d0 : V) (m : list (nat * V)) :
  (c, d) ∈ Backup.dict_set c0 d0 m -> (c, d) = (c0, d0) \/ (c, d) ∈ m.
Proof.
  induction m as [|[c' d'] m IH]; simpl.
  - intros ->%list_elem_of_singleton. by left.
  - destruct (Nat.eqb c0 c').
    + intros [->|H]%elem_of_cons; [by left|right; by right].
    + intros [->|H]%elem_of_cons; [right; by left|].
      destruct (IH H) as [->|?]; [by left|right; by right].
Qed.

(** A key is set once: the keys of the map stay without repetition. *)
Lemma dict_set_NoDup {V} (c0 : nat) (d0 : V) (m : list (nat * V)) :
  NoDup m.*1 -> NoDup (Backup.dict_set c0 d0 m).*1.
Proof.
  assert (forall c, c ∈ (Backup.dict_set c0 d0 m).*1 -> c = c0 \/ c ∈ m.*1) as Hkeys.
  { intros c ([c' d] & -> & Hin)%list_elem_of_fmap.
    destruct (dict_set_elem_of _ _ _ _ _ Hin) as [[= -> ->]|Hm]; [by left|].
    right. apply list_elem_of_fmap. by exists (c', d). }
  revert Hkeys. induction m as [|[c' d'] m IH]; simpl; intros Hkeys Hnd.
  - apply NoDup_singleton.
  - apply NoDup_cons in Hnd as [Hnotin Hnd].
    destruct (Nat.eqb_spec c0 c') as [->|Hne]; simpl.
    + by constructor.
    + constructor.
      * intros ([c d] & Hc & Hin)%list_elem_of_fmap. simpl in Hc. subst c.
        destruct (dict_set_elem_of _ _ _ _ _ Hin) as [[= ->]|Hm]; [done|].
        apply Hnotin. apply list_elem_of_fmap. by exists (c', d).
      * apply IH; [|done]. intros c ([c1 d] & -> & Hin)%list_elem_of_fmap.
        destruct (dict_set_elem_of _ _ _ _ _ Hin) as [[= -> ->]|Hm]; [by left|].
        right. apply list_elem_of_fmap. by exists (c1, d).
Qed.

(** Every date of the map is the normalised date parsed from the header
    cell of its column. *)
Lemma fill_col2date_inv (df : DataFrame) (hdr : nat) (cs : list nat)
    (acc col2date : list (nat * Timestamp)) :
  Backup.fill_col2date df hdr cs acc = Ok col2date ->
  forall c d, (c, d) ∈ col2date ->
    (c, d) ∈ acc \/
    exists v d0, iat df hdr c = Ok v /\ Backup.parse_date v = Some d0 /\
                 d = ts_normalize d0.
Proof.
  revert acc. induction cs as [|c0 cs IH]; intros acc; simpl.
  - intros [= <-] c d Hin. by left.
  - intros (v & Hv & Hrest)%bind_Ok_inv c d Hin.
    destruct (Backup.parse_date v) as [d0|] eqn:Hd0.
    + destruct (IH _ Hrest c d Hin) as [Hacc|?]; [|by right].
      destruct (dict_set_elem_of _ _ _ _ _ Hacc) as [[= -> ->]|?]; [|by left].
      right. by exists v, d0.
    + by apply (IH _ Hrest).
Qed.

Lemma fill_col2date_NoDup (df : DataFrame) (hdr : nat) (cs : list nat)
    (acc col2date : list (nat * Timestamp)) :
  NoDup acc.*1 ->
  Backup.fill_col2date df hdr cs acc = Ok col2date -> NoDup col2date.*1.
Proof.
  revert acc. induction cs as [|c0 cs IH]; intros acc Hnd; simpl.
  - by intros [= <-].
  - intros (v & Hv & Hrest)%bind_Ok_inv.
    destruct (Backup.parse_date v); [|by eapply IH].
    eapply IH; [|done]. by apply dict_set_NoDup.
Qed.

Lemma emit_total_inv (name : pystr) (sec metric : option pystr) row
    (total_c : Z) (records out : list OutputRecord) :
  Backup.emit_total name sec metric row total_c records = Ok out ->
  out = records \/
  exists tv, out = records ++ [make_record name sec metric None true tv].
Proof.
  unfold Backup.emit_total. destruct (_ && _); [|intros [= <-]; by left].
  intros (tv & _ & H)%bind_Ok_inv. revert H.
  destruct (_ && _); [|intros [= <-]; by left].
  change (Backup.parse_number (CStr ?x)) with (Backup.parse_number_str x).
  destruct (Backup.parse_number_str (strip (str tv))) as [val pct] eqn:E.
  intros [= <-]. right. exists tv. unfold make_record. simpl. by rewrite E.
Qed.

Lemma process_row_inv (name : pystr) (first_c : nat) col2date (total_c : Z)
    (st st' : option pystr * list OutputRecord) row :
  Backup.process_row name first_c col2date total_c st row = Ok st' ->
  exists new, st'.2 = st.2 ++ new /\ Forall (record_from col2date) new.
Proof.
  destruct st as [cur records]. unfold Backup.process_row.
  rewrite find_label_char. destruct (_ <=? _)%nat; [|done].
  rewrite bind_Ok, emit_daily_char. destruct (forallb _ _); [|done].
  rewrite bind_Ok. intros (out & Hout & [= <-])%bind_Ok_inv. simpl.
  assert (Forall (record_from col2date)
            (daily_records name
               (Backup.update_section (row_label first_c row) cur)
               (Backup.metric_of (row_label first_c row)) row col2date))
    as Hdaily.
  { apply daily_records_Forall. intros c d v Hin _ _. right.
    split; [done|]. by exists c, d. }
  destruct (emit_total_inv _ _ _ _ _ _ _ Hout) as [->|[tv ->]].
  - by eexists.
  - eexists. split; [by rewrite <- app_assoc|].
    apply Forall_app. split; [done|]. constructor; [by left|constructor].
Qed.

Lemma process_rows_inv (name : pystr) (first_c : nat) col2date (total_c : Z)
    (st st' : option pystr * list OutputRecord) (rows : DataFrame) :
  Backup.process_rows name first_c col2date total_c st rows = Ok st' ->
  exists new, st'.2 = st.2 ++ new /\ Forall (record_from col2date) new.
Proof.
  revert st. induction rows as [|row rows IH]; intros st; simpl.
  - intros [= <-]. exists []. by rewrite app_nil_r.
  - intros (st1 & Hrow & Hrest)%bind_Ok_inv.
    destruct (process_row_inv _ _ _ _ _ _ _ Hrow) as (new1 & E1 & H1).
    destruct (IH _ Hrest) as (new2 & E2 & H2).
    exists (new1 ++ new2). rewrite E2, E1, <- app_assoc.
    split; [done|by apply Forall_app].
Qed.

End RecordDates.

(** C9. In every table [normalize_file] returns, the date of a record is
    null exactly when the record is a total; the date of a daily record is
    the normalised date that [parse_date] gave for a cell of the header
    row, so it is never null. *)
Theorem date_null_iff_total {R : Runtime} {FS : FileSystem}
    (path sheet : pystr) (t : Table) :
  Backup.normalize_file path sheet = Ok t ->
  exists df,
    read_frame path sheet = Ok df /\
    forall r, r ∈ rows t ->
      (date r = None <-> is_total r = true) /\
      (is_total r = false ->
       exists c v d0,
         iat df (Z.to_nat (Backup.find_date_header_row df).1.1.1) c = Ok v /\
         Backup.parse_date v = Some d0 /\
         date r = Some (ts_normalize d0)).
Proof.
  unfold Backup.normalize_file. intros (df & Hdf & Ht)%bind_Ok_inv.
  exists df. split; [done|].
  destruct (normalize_frame_rows _ _ _ Ht)
    as (first_c & cs & col2date & total_c & final & Hfill & Hrows).
  destruct (process_rows_inv _ _ _ _ _ _ _ Hrows) as (new & Hnew & Hall).
  simpl in Hnew. subst new. intros r Hr.
  rewrite Forall_forall in Hall.
  destruct (Hall r Hr) as [[Htot Hdate]|(Htot & c & d & Hin & Hdate)].
  - rewrite Htot, Hdate. split; [done|]. by intros.
  - rewrite Htot, Hdate. split; [by split|]. intros _.
    destruct (fill_col2date_inv _ _ _ _ _ Hfill c d Hin)
      as [?%elem_of_nil|(v & d0 & Hv & Hd0 & ->)]; [done|].
    by exists c, v, d0.
Qed.

Lemma date_null_iff_total_sample :
  exists df,
    read_frame (R := Sample.runtime) (FS := Sample.files)
      (py "daily.csv") (py "Daily") = Ok df /\
    forall r, r ∈ rows Sample.daily_table ->
      (date r = None <-> is_total r = true) /\
      (is_total r = false ->
       exists c v d0,
         iat df (Z.to_nat (Backup.find_date_header_row df).1.1.1) c = Ok v /\
         Backup.parse_date v = Some d0 /\
         date r = Some (ts_normalize d0)).
Proof.
  by apply (date_null_iff_total (R := Sample.runtime) (FS := Sample.files)
              (py "daily.csv") (py "Daily") Sample.daily_table).
Defined.

(** ** The aggregator and the command line *)

Lemma omap_id_Some {A} (l : list A) : omap id (map Some l) = l.
Proof. induction l as [|x l IH]; simpl; [done|]. by f_equal. Qed.

(** The master table has the canonical columns and stacks the records of
    the frames in their order. *)
Lemma aggregate_stacks {R : Runtime} (frames : list Table) :
  Backup.aggregate frames =
    Ok {| columns := COLS; rows := concat (map rows frames) |}.
Proof.
  unfold Backup.aggregate. destruct frames as [|t frames]; [done|].
  unfold pd_concat. rewrite omap_id_Some. done.
Qed.

(** C8, as the code has it. [main] declares its positional argument
    [files] with [nargs="+"]: a command line without any file ends in the
    usage error of [argparse], whatever its options, and nothing is
    written. The aggregation that follows the loop over the files does
    accept an empty list of frames: it gives the empty master table with
    the eight canonical columns. *)
Theorem empty_batch {R : Runtime} {FS : FileSystem} :
  Backup.aggregate [] = Ok {| columns := COLS; rows := [] |} /\
  columns (reindex COLS empty_frame) =
    [py "source_file"; py "section"; py "metric_label"; py "date";
     py "value_raw"; py "value_num"; py "is_percent"; py "is_total"] /\
  forall (out sheet : option pystr) (peek : bool),
    Backup.main {| cli_out := out; cli_sheet := sheet; cli_peek := peek;
                   cli_files := [] |} = Raise UsageError.
Proof.
  split; [exact (aggregate_stacks [])|]. split; [done|].
  intros out sheet peek. unfold Backup.main, parse_args. simpl.
  by destruct out.
Qed.

(** C8, as stated, fails: run on zero files, the script ends in the usage
    error and produces no table. *)
Lemma main_without_files_fails :
  Backup.main (R := Sample.runtime) (FS := Sample.files)
    {| cli_out := Some (py "master.csv"); cli_sheet := None;
       cli_peek := false; cli_files := [] |}
  = Raise UsageError.
Proof. reflexivity. Qed.

(** ** normalize_daily_reports.py: nothing is emitted *)

Section NothingEmitted.
Context {R : Runtime} {FS : FileSystem}.

Lemma normalize_file_None (path sheet : pystr) (r : option Table) :
  Normalize.normalize_file path sheet = Ok r -> r = None.
Proof.
  unfold Normalize.normalize_file. intros (df & _ & H)%bind_Ok_inv. revert H.
  destruct (Normalize.find_date_header_row df) as [[[hdr first_c] last_c] total_c].
  destruct (hdr <? 0); [done|]. by intros [= <-].
Qed.

Lemma collect_frames_None (sheet : pystr) (files : list pystr)
    (frames out : list (option Table)) :
  Normalize.collect_frames sheet files frames = Ok out ->
  out = frames ++ replicate (length files) None.
Proof.
  revert frames. induction files as [|f files IH]; intros frames; simpl.
  - intros [= <-]. by rewrite app_nil_r.
  - intros (r & Hr & Hrest)%bind_Ok_inv.
    apply normalize_file_None in Hr as ->.
    rewrite (IH _ Hrest). by rewrite <- app_assoc.
Qed.

Lemma pd_concat_all_None (n : nat) :
  exists e, pd_concat (replicate n None) = Raise e.
Proof.
  destruct n as [|n]; [by eexists|].
  unfold pd_concat. replace (omap id (replicate (S n) None)) with (@nil Table).
  - by eexists.
  - induction (S n) as [|k IH]; simpl; [done|exact IH].
Qed.

End NothingEmitted.

(** C10. In [normalize_daily_reports.py], [normalize_file] returns [None]
    for every file whose suffix is supported, that can be read and whose
    grid has a date header; [main] therefore hands [pd.concat] a list of
    [None] only and never gets to a master table: every run ends in an
    exception. *)
Theorem normalize_emits_nothing {R : Runtime} {FS : FileSystem} :
  (forall (path sheet : pystr) (df : DataFrame),
     read_frame path sheet = Ok df ->
     0 <= (Normalize.find_date_header_row df).1.1.1 ->
     Normalize.normalize_file path sheet = Ok None)
  /\
  (forall cl : CommandLine, exists e, Normalize.main cl = Raise e).
Proof.
  split.
  - intros path sheet df Hdf Hhdr. unfold Normalize.normalize_file.
    rewrite Hdf, bind_Ok.
    destruct (Normalize.find_date_header_row df) as [[[hdr first_c] last_c] total_c].
    simpl in Hhdr. by destruct (Z.ltb_spec hdr 0); [lia|].
  - intros cl. unfold Normalize.main.
    destruct (cli_peek cl); [by eexists|].
    destruct (parse_args cl) as [args|e]; [|by eexists]. rewrite bind_Ok.
    destruct (Normalize.collect_frames _ _ _) as [frames|e] eqn:Hframes;
      [|by eexists].
    rewrite bind_Ok. apply collect_frames_None in Hframes as ->. simpl.
    destruct (pd_concat_all_None (length (args_files args))) as [e ->].
    by eexists.
Qed.

Lemma normalize_emits_nothing_sample :
  Normalize.normalize_file (R := Sample.runtime) (FS := Sample.files)
    (py "daily.csv") (py "Daily") = Ok None
  /\
  exists e,
    Normalize.main (R := Sample.runtime) (FS := Sample.files)
      {| cli_out := Some (py "master.csv"); cli_sheet := None;
         cli_peek := false; cli_files := [py "daily.csv"] |} = Raise e.
Proof.
  destruct (normalize_emits_nothing (R := Sample.runtime) (FS := Sample.files))
    as [Hfile Hmain].
  split.
  - apply (Hfile (py "daily.csv") (py "Daily") Sample.daily); [reflexivity|].
    vm_compute. discriminate.
  - apply Hmain.
Defined.

(** ** Frames: the row loop stays in range

    On a frame with a date header, every row below the header has the
    columns the loops read, so the hypotheses of the properties of one row
    hold for each of them and [normalize_frame] returns a table. *)

Section FrameInRange.
Context {R : Runtime}.
Implicit Types (row : Row) (df : DataFrame) (col2date : list (nat * Timestamp)).

Lemma dict_set_keys {V} (c c0 : nat) (d0 : V) (m : list (nat * V)) :
  c ∈ (Backup.dict_set c0 d0 m).*1 -> c = c0 \/ c ∈ m.*1.
Proof.
  intros ([c' d] & -> & Hin)%list_elem_of_fmap.
  destruct (dict_set_elem_of _ _ _ _ _ Hin) as [[= -> ->]|Hm]; [by left|].
  right. apply list_elem_of_fmap. by exists (c', d).
Qed.

Lemma fill_col2date_ok df (hdr : nat) (hrow : Row) (cs : list nat)
    (acc : list (nat * Timestamp)) :
  df !! hdr = Some hrow ->
  Forall (fun c => (c < length hrow)%nat) cs ->
  exists col2date,
    Backup.fill_col2date df hdr cs acc = Ok col2date /\
    forall c, c ∈ col2date.*1 -> c ∈ acc.*1 \/ c ∈ cs.
Proof.
  intros Hrow Hcs. revert acc.
  induction Hcs as [|c cs Hc _ IH]; intros acc; simpl.
  - exists acc. split; [done|]. by left.
  - destruct (lookup_lt_is_Some_2 hrow c Hc) as [v Hv].
    unfold iat. rewrite Hrow, (iloc_Some _ _ _ Hv), bind_Ok.
    destruct (Backup.parse_date v) as [d|].
    + destruct (IH (Backup.dict_set c (ts_normalize d) acc))
        as (col2date & -> & Hkeys).
      exists col2date. split; [done|]. intros c' Hc'.
      destruct (Hkeys c' Hc') as [Hin|?]; [|right; by right].
      destruct (dict_set_keys _ _ _ _ Hin) as [->|?]; [right; by left|by left].
    + destruct (IH acc) as (col2date & -> & Hkeys).
      exists col2date. split; [done|]. intros c' Hc'.
      destruct (Hkeys c' Hc') as [?|?]; [by left|right; by right].
Qed.

Lemma process_rows_ok (name : pystr) (first_c : nat) col2date (total_c : Z)
    (st : option pystr * list OutputRecord) (rows : DataFrame) :
  Forall (fun row => row_in_range first_c col2date row = true) rows ->
  -1 <= total_c ->
  exists st', Backup.process_rows name first_c col2date total_c st rows = Ok st'.
Proof.
  intros Hrows Htot. revert st.
  induction Hrows as [|row rows Hrow _ IH]; intros [cur records];
    cbn [Backup.process_rows].
  - by eexists.
  - rewrite process_row_ok by done. cbv zeta. rewrite bind_Ok. apply IH.
Qed.

(** What [find_date_header_row] returns when it finds a header. *)
Lemma header_found df (hdr first_c last_c total_c : Z) :
  Backup.find_date_header_row df = (hdr, first_c, last_c, total_c) ->
  0 <= hdr ->
  exists (r f l : nat) (hrow : Row),
    hdr = Z.of_nat r /\ first_c = Z.of_nat f /\ last_c = Z.of_nat l /\
    df !! r = Some hrow /\ (f <= l < length hrow)%nat /\ -1 <= total_c.
Proof.
  intros Hfind Hhdr.
  pose proof (scan_header_spec Backup.is_date_like 3 Backup.is_total_caption
                ltac:(lia) [] df ltac:(by intros [|?] ?)) as Hspec.
  simpl in Hspec. fold (Backup.find_date_header_row df) in Hspec.
  rewrite Hfind in Hspec.
  inversion Hspec as [|r hrow f l tot Hrow _ _ Hf Hfmin Hl _ Htot]; subst.
  { lia. }
  exists r, f, l, hrow. repeat split; try done.
  - by apply Hfmin.
  - destruct Hl as (v & Hv & _). by apply lookup_lt_Some in Hv.
  - destruct Htot as [[-> _]|(c & _ & -> & _)]; lia.
Qed.

(** On a rectangular frame with a date header the map of the date
    columns is built without error, and every row below the header has the
    columns that the loops of [process_row] read. *)
Lemma rows_below_header_in_range df (hdr first_c last_c total_c : Z) :
  rectangular df ->
  Backup.find_date_header_row df = (hdr, first_c, last_c, total_c) ->
  0 <= hdr ->
  exists col2date,
    Backup.fill_col2date df (Z.to_nat hdr)
      (seq (Z.to_nat first_c) (Z.to_nat (last_c + 1) - Z.to_nat first_c)) []
      = Ok col2date /\
    -1 <= total_c /\
    Forall (fun row => row_in_range (Z.to_nat first_c) col2date row = true)
           (drop (S (Z.to_nat hdr)) df).
Proof.
  intros [ncols Hrect] Hfind Hhdr.
  destruct (header_found df hdr first_c last_c total_c)
    as (r & f & l & hrow & -> & -> & -> & Hrow & Hfl & Htot); [done..|].
  rewrite !Nat2Z.id.
  assert (length hrow = ncols) as Hlen.
  { rewrite Forall_forall in Hrect. apply Hrect.
    by eapply list_elem_of_lookup_2. }
  destruct (fill_col2date_ok df r hrow
              (seq f (Z.to_nat (Z.of_nat l + 1) - f)) [] Hrow)
    as (col2date & Hfill & Hkeys).
  { apply Forall_forall. intros c Hc%elem_of_seq. lia. }
  exists col2date. split; [done|]. split; [done|].
  apply Forall_forall. intros row Hin%(subseteq_drop (S r) df).
  rewrite Forall_forall in Hrect. apply Hrect in Hin.
  unfold row_in_range. apply andb_true_intro. split.
  - apply Nat.leb_le. lia.
  - apply forallb_forall. intros [c d] Hcd%list_elem_of_In. apply Nat.ltb_lt.
    destruct (Hkeys c) as [?%elem_of_nil|Hc%elem_of_seq]; [| done | simpl; lia].
    apply list_elem_of_fmap. by exists (c, d).
Qed.

(** [normalize_frame] returns a table for every rectangular frame with a
    date header. *)
Lemma normalize_frame_ok (name : pystr) df :
  rectangular df ->
  0 <= (Backup.find_date_header_row df).1.1.1 ->
  exists t, Backup.normalize_frame name df = Ok t.
Proof.
  intros Hrect Hhdr. unfold Backup.normalize_frame.
  destruct (Backup.find_date_header_row df)
    as [[[hdr first_c] last_c] total_c] eqn:Hfind.
  simpl in Hhdr.
  destruct (rows_below_header_in_range df hdr first_c last_c total_c)
    as (col2date & -> & Htot & Hrows); [done..|].
  destruct (Z.ltb_spec hdr 0); [lia|]. rewrite bind_Ok.
  destruct (process_rows_ok name (Z.to_nat first_c) col2date total_c (None, [])
              (drop (S (Z.to_nat hdr)) df)) as [st ->]; [done..|].
  by eexists.
Qed.

End FrameInRange.

(** * Further properties *)

(** ** More on strings *)

Lemma endswith_inv (s : pystr) (c : N) :
  endswith s c = true -> exists t, s = t ++ [c].
Proof.
  unfold endswith. destruct s as [|x t _] using rev_ind; [done|].
  rewrite last_snoc. intros ->%N.eqb_eq. by exists t.
Qed.

Lemma lstrip_Forall (P : N -> Prop) (s : pystr) :
  Forall P s -> Forall P (lstrip s).
Proof.
  induction 1 as [|x s Hx Hs IH]; simpl; [done|].
  destruct (is_space x); [done|by constructor].
Qed.

Lemma strip_Forall (P : N -> Prop) (s : pystr) :
  Forall P s -> Forall P (strip s).
Proof.
  intros H. unfold strip, rstrip.
  by apply Forall_reverse, lstrip_Forall, Forall_reverse, lstrip_Forall.
Qed.

Lemma strip_forallb (f : N -> bool) (s : pystr) :
  forallb f s = true -> forallb f (strip s) = true.
Proof.
  intros H. apply Is_true_true, forallb_True, strip_Forall, forallb_True.
  by apply Is_true_true.
Qed.

Lemma lstrip_nospace (s : pystr) :
  Forall (fun c => is_space c = false) s -> lstrip s = s.
Proof. destruct 1 as [|x s Hx _]; simpl; [done|]. by rewrite Hx. Qed.

Lemma strip_nospace (s : pystr) :
  Forall (fun c => is_space c = false) s -> strip s = s.
Proof.
  intros H. unfold strip, rstrip. rewrite (lstrip_nospace s H).
  rewrite lstrip_nospace by by apply Forall_reverse.
  apply reverse_involutive.
Qed.

Lemma replace_absent (c : N) (r s : pystr) :
  Forall (fun x => x ≠ c) s -> replace c r s = s.
Proof.
  unfold replace. induction 1 as [|x s Hx _ IH]; simpl; [done|].
  apply N.eqb_neq in Hx. rewrite Hx. simpl. by f_equal.
Qed.

(** ** More on the number parsers *)

(** X1. On a text, the flag [is_percent] that the backup parser returns
    says exactly whether the trimmed text ends in a per-cent sign. *)
Theorem parse_number_flag {R : Runtime} {L : RuntimeLaws R} (s : pystr) :
  (Backup.parse_number (CStr s)).2 = endswith (strip s) PERCENT.
Proof.
  simpl. unfold Backup.parse_number_str.
  destruct (endswith (strip s) PERCENT) eqn:Hpct.
  - destruct (endswith_inv _ _ Hpct) as [t Ht]. rewrite Ht.
    rewrite lower_percent, str_in_snoc_false by reflexivity.
    rewrite bool_decide_eq_false_2 by (by destruct t).
    simpl. by destruct (float_of_str _).
  - destruct (_ || _); [done|]. by destruct (float_of_str _).
Qed.

Lemma parse_number_flag_sample :
  (Backup.parse_number (R := Sample.runtime) (Sample.txt " 12,5 % ")).2
  = endswith (strip (py " 12,5 % ")) PERCENT.
Proof. exact (parse_number_flag (L := sample_laws) (py " 12,5 % ")). Defined.

(** X2. The backup parser answers [(None, False)] for a text that is blank
    once trimmed, and for an ASCII text that reads nan, none or a lone
    hyphen once trimmed, in any letter case. *)
Theorem parse_number_missing {R : Runtime} {L : RuntimeLaws R} (s : pystr) :
  strip s = [] \/
  (forallb is_ascii s = true /\
   str_in (ascii_lower <$> strip s) [py "nan"; py "none"; py "-"] = true) ->
  Backup.parse_number (CStr s) = (None, false).
Proof.
  change (Backup.parse_number (CStr s)) with (Backup.parse_number_str s).
  unfold Backup.parse_number_str. intros [->|[Hascii Hin]]; [done|].
  rewrite lower_ascii, Hin; [by rewrite orb_true_r|].
  by apply strip_forallb.
Qed.

Lemma parse_number_missing_sample :
  Backup.parse_number (R := Sample.runtime) (Sample.txt " NaN ") = (None, false).
Proof.
  apply (parse_number_missing (L := sample_laws) (py " NaN ")).
  right. split; reflexivity.
Defined.

(** X3. In [normalize_daily_reports.py] too, a text that ends in a
    per-cent sign is parsed with [is_percent = True]: the sign is cut off,
    the periods of what is left are deleted and its commas become periods,
    and the number [float()] reads there is divided by 100; a text that
    [float()] refuses gives [(None, True)]. *)
Theorem normalize_parse_number_percent {R : Runtime} (s : pystr) :
  Normalize.parse_number (CStr (s ++ [PERCENT])) =
    (float_div100 <$>
       float_of_str (replace COMMA [PERIOD] (replace PERIOD [] (lstrip s))),
     true).
Proof.
  unfold Normalize.parse_number. simpl str.
  rewrite strip_snoc by reflexivity. rewrite endswith_snoc.
  unfold drop_last. rewrite removelast_last.
  by destruct (float_of_str _).
Qed.

(** X4. The two parsers return the same pair for every text that, once
    trimmed, is not empty, is none of the tokens the backup parser takes
    for a missing value, and has no white space and no period in it: the
    policies differ on periods and blanks only. *)
Theorem parse_number_variants_agree {R : Runtime} (s : pystr) :
  strip s ≠ [] ->
  str_in (str_lower (strip s)) [py "nan"; py "none"; py "-"] = false ->
  Forall (fun c => is_space c = false /\ c ≠ PERIOD) (strip s) ->
  Backup.parse_number (CStr s) = Normalize.parse_number (CStr s).
Proof.
  intros Hne Htok Hchars.
  change (Backup.parse_number (CStr s)) with (Backup.parse_number_str s).
  unfold Backup.parse_number_str, Normalize.parse_number. cbn [str].
  rewrite bool_decide_eq_false_2, Htok by done. cbn [orb].
  assert (forall t, Forall (fun c => is_space c = false /\ c ≠ PERIOD) t ->
            Backup.normalize_locale (strip t)
            = replace COMMA [PERIOD] (replace PERIOD [] t)) as Hclean.
  { intros t Ht. rewrite strip_nospace by (eapply Forall_impl; [eassumption|by intros ? [? _]]).
    unfold Backup.normalize_locale.
    rewrite (replace_absent NBSP), (replace_absent SPACE), (replace_absent PERIOD);
      [done|eapply Forall_impl; [exact Ht|]..].
    - by intros c [_ ?].
    - intros c [Hc _] ->. done.
    - intros c [Hc _] ->. done. }
  destruct (endswith (strip s) PERCENT) eqn:Hpct.
  - destruct (endswith_inv _ _ Hpct) as [t Ht]. rewrite Ht in *.
    unfold drop_last. rewrite removelast_last.
    apply Forall_app in Hchars as [Hchars _]. by rewrite Hclean.
  - rewrite <- (Hclean (strip s) Hchars).
    rewrite (strip_nospace (strip s)) by (eapply Forall_impl; [eassumption|by intros ? [? _]]).
    done.
Qed.

Lemma parse_number_variants_agree_sample :
  Backup.parse_number (R := Sample.runtime) (Sample.txt " 1234,5% ")
  = Normalize.parse_number (Sample.txt " 1234,5% ").
Proof.
  apply (parse_number_variants_agree (R := Sample.runtime) (py " 1234,5% ")).
  - by vm_compute.
  - reflexivity.
  - vm_compute. repeat constructor; done.
Defined.

(** ** More on the header locator *)

Section HeaderScanBounds.
Context {R : Runtime}.
Variable is_date_like : cell -> bool.
Variable threshold : nat.
Variable is_total_caption : cell -> bool.
Hypothesis threshold_pos : (0 < threshold)%nat.

Lemma date_cols_from_NoDup (c : nat) (row : Row) :
  NoDup (date_cols_from is_date_like c row).
Proof.
  revert c. induction row as [|v row IH]; intros c; simpl; [constructor|].
  destruct (is_date_like v); [|apply IH].
  constructor; [|apply IH].
  intros [Hle _]%(date_cols_from_spec is_date_like threshold threshold_pos). lia.
Qed.

(** The date-like columns of a row fit between their least and their
    greatest. *)
Lemma date_cols_span (row : Row) :
  let dc := date_cols_from is_date_like 0 row in
  dc ≠ [] -> (py_min dc + length dc <= py_max dc + 1)%nat.
Proof.
  intros dc Hne.
  destruct (py_min_spec dc Hne) as [_ Hmin].
  destruct (py_max_spec dc Hne) as [_ Hmax].
  assert (dc ⊆+ seq (py_min dc) (py_max dc + 1 - py_min dc)) as Hsub.
  { apply NoDup_submseteq; [apply date_cols_from_NoDup|].
    intros x Hx. apply elem_of_seq.
    specialize (Hmin x Hx). specialize (Hmax x Hx). lia. }
  apply submseteq_length in Hsub. rewrite length_seq in Hsub.
  assert (py_min dc <= py_max dc)%nat; [|lia].
  destruct dc as [|x dc']; [done|].
  etrans; [apply (Hmin x)|apply (Hmax x)]; by left.
Qed.

Lemma scan_header_in_bounds (pre rows : DataFrame) :
  (forall r row, pre !! r = Some row ->
                 (count_date_like is_date_like row < threshold)%nat) ->
  header_in_bounds threshold (pre ++ rows)
    (scan_header is_date_like threshold is_total_caption (length pre) rows).
Proof.
  intros Hpre.
  pose proof (scan_header_spec is_date_like threshold is_total_caption
                threshold_pos pre rows Hpre) as Hspec.
  remember (scan_header _ _ _ _ _) as res eqn:Hres.
  destruct Hspec as [|r row first last tot Hrow Hth _ Hf Hfmin Hl Hlmax Htot];
    [by left|].
  right. exists r, first, last, row, tot. split; [done|]. split; [done|].
  assert (last < length row)%nat as Hlast.
  { destruct Hl as (v & Hv & _). by apply lookup_lt_Some in Hv. }
  split; [|split; [done|]].
  - pose proof (date_cols_span row) as Hspan. cbv zeta in Hspan.
    rewrite date_cols_from_length in Hspan.
    assert (date_cols_from is_date_like 0 row ≠ []) as Hne.
    { intros E. pose proof (date_cols_from_length is_date_like 0 row) as Hlen.
      rewrite E in Hlen. simpl in Hlen. lia. }
    specialize (Hspan Hne).
    destruct (py_min_spec _ Hne) as [Hmin_in _].
    destruct (py_max_spec _ Hne) as [Hmax_in _].
    apply (date_cols_from_spec is_date_like threshold threshold_pos)
      in Hmin_in as [_ Hmin_in].
    apply (date_cols_from_spec is_date_like threshold threshold_pos)
      in Hmax_in as [_ Hmax_in].
    rewrite Nat.sub_0_r in Hmin_in, Hmax_in.
    apply Hfmin in Hmin_in. apply Hlmax in Hmax_in. lia.
  - destruct Htot as [[-> _]|(c & v & -> & Hc & Hv & _)]; [by left|].
    right. apply lookup_lt_Some in Hv. lia.
Qed.

(** Rows added below a frame in which a header was found do not move the
    header. *)
Lemma scan_header_app (r : nat) (rows more : DataFrame) :
  0 <= (scan_header is_date_like threshold is_total_caption r rows).1.1.1 ->
  scan_header is_date_like threshold is_total_caption r (rows ++ more)
  = scan_header is_date_like threshold is_total_caption r rows.
Proof.
  revert r. induction rows as [|row rows IH]; intros r; simpl; [lia|].
  destruct (threshold <=? _)%nat; [done|]. apply IH.
Qed.

End HeaderScanBounds.

(** X5. What [find_date_header_row] returns is always in bounds, in both
    scripts: either the four [-1] together, or the index of a row of the
    frame, a date span that lies inside that row and is at least as wide
    as the threshold (3 in the backup script, 5 in the other), and a totals
    column that is [-1] or lies right of the span, inside the row. *)
Theorem find_date_header_row_in_bounds {R : Runtime} (df : DataFrame) :
  header_in_bounds 3 df (Backup.find_date_header_row df) /\
  header_in_bounds 5 df (Normalize.find_date_header_row df).
Proof.
  split.
  - apply (scan_header_in_bounds Backup.is_date_like 3 Backup.is_total_caption
             ltac:(lia) [] df). by intros [|r] row.
  - apply (scan_header_in_bounds Normalize.is_date_like 5
             Normalize.is_total_caption ltac:(lia) [] df). by intros [|r] row.
Qed.

(** X6. Once a frame has a date header, rows appended below it leave the
    located header as it is, in both scripts: the first qualifying row
    wins, however many dates a later row holds. *)
Theorem find_date_header_row_app {R : Runtime} (df more : DataFrame) :
  (0 <= (Backup.find_date_header_row df).1.1.1 ->
   Backup.find_date_header_row (df ++ more) = Backup.find_date_header_row df)
  /\
  (0 <= (Normalize.find_date_header_row df).1.1.1 ->
   Normalize.find_date_header_row (df ++ more)
   = Normalize.find_date_header_row df).
Proof.
  split; intros Hfound.
  - exact (scan_header_app Backup.is_date_like 3 Backup.is_total_caption
             ltac:(lia) 0%nat df more Hfound).
  - exact (scan_header_app Normalize.is_date_like 5 Normalize.is_total_caption
             ltac:(lia) 0%nat df more Hfound).
Qed.

Lemma find_date_header_row_app_sample :
  Backup.find_date_header_row (R := Sample.runtime)
    (Sample.daily ++ drop 1 Sample.daily)
  = Backup.find_date_header_row Sample.daily
  /\
  Normalize.find_date_header_row (R := Sample.runtime)
    (Sample.daily ++ drop 1 Sample.daily)
  = Normalize.find_date_header_row Sample.daily.
Proof.
  destruct (find_date_header_row_app (R := Sample.runtime) Sample.daily
              (drop 1 Sample.daily)) as [HB HN].
  split; [apply HB|apply HN]; vm_compute; discriminate.
Defined.

(** ** More on the records of a file *)

Lemma lstrip_strip (s : pystr) : lstrip (strip s) = strip s.
Proof.
  unfold strip. destruct (lstrip s) as [|a u] eqn:E; [done|].
  assert (is_space a = false) as Ha by (apply (lstrip_head s); by rewrite E).
  unfold rstrip. rewrite reverse_cons, lstrip_snoc, reverse_snoc by done.
  simpl. by rewrite Ha.
Qed.

Lemma strip_idemp (s : pystr) : strip (strip s) = strip s.
Proof.
  unfold strip at 1. rewrite lstrip_strip. unfold strip, rstrip.
  by rewrite reverse_involutive, lstrip_idemp.
Qed.

Section FileRecords.
Context {R : Runtime}.
Implicit Types (row : Row) (col2date : list (nat * Timestamp)).

Lemma emits_nonempty (v : cell) : emits v = true -> nonempty_cell v = true.
Proof. unfold emits. by intros [? _]%andb_prop. Qed.

Lemma emit_total_inv_nonempty (name : pystr) (sec metric : option pystr) row
    (total_c : Z) (records out : list OutputRecord) :
  Backup.emit_total name sec metric row total_c records = Ok out ->
  out = records \/
  exists tv, nonempty_cell tv = true /\
             out = records ++ [make_record name sec metric None true tv].
Proof.
  unfold Backup.emit_total. destruct (_ && _); [|intros [= <-]; by left].
  intros (tv & _ & H)%bind_Ok_inv. revert H. unfold nonempty_cell.
  destruct (negb (is_missing tv) && _) eqn:Hne; [|intros [= <-]; by left].
  change (Backup.parse_number (CStr ?x)) with (Backup.parse_number_str x).
  destruct (Backup.parse_number_str (strip (str tv))) as [val pct] eqn:E.
  intros [= <-]. right. exists tv. split; [done|].
  unfold make_record. simpl. by rewrite E.
Qed.

(** The records one turn of the row loop appends are built by
    [make_record] from cells that hold a value, with the section after the
    row and the metric label of the row. *)
Lemma process_row_made (name : pystr) (first_c : nat) col2date (total_c : Z)
    (cur sec' : option pystr) (records out : list OutputRecord) row :
  Backup.process_row name first_c col2date total_c (cur, records) row
    = Ok (sec', out) ->
  sec' = Backup.update_section (row_label first_c row) cur /\
  exists new,
    out = records ++ new /\
    Forall (fun r => exists d total v,
              nonempty_cell v = true /\
              r = make_record name sec'
                    (Backup.metric_of (row_label first_c row)) d total v) new.
Proof.
  unfold Backup.process_row.
  rewrite find_label_char. destruct (_ <=? _)%nat; [|done].
  rewrite bind_Ok, emit_daily_char. destruct (forallb _ _); [|done].
  rewrite bind_Ok. intros (out' & Hout & [= <- <-])%bind_Ok_inv.
  split; [done|].
  set (sec := Backup.update_section (row_label first_c row) cur) in *.
  set (metric := Backup.metric_of (row_label first_c row)) in *.
  assert (Forall (fun r => exists d total v,
                    nonempty_cell v = true /\
                    r = make_record name sec metric d total v)
            (daily_records name sec metric row col2date)) as Hdaily.
  { apply daily_records_Forall. intros c d v _ _ Hv.
    exists (Some d), false, v. split; [by apply emits_nonempty|done]. }
  destruct (emit_total_inv_nonempty _ _ _ _ _ _ _ Hout)
    as [->|(tv & Htv & ->)].
  - by eexists.
  - eexists. split; [by rewrite <- app_assoc|].
    apply Forall_app. split; [done|].
    constructor; [|constructor]. by exists None, true, tv.
Qed.

(** An invariant [I] of the current section and a property [P] of the
    records, carried through the row loop. *)
Lemma process_rows_made (I : option pystr -> Prop) (P : OutputRecord -> Prop)
    (name : pystr) (first_c : nat) col2date (total_c : Z) :
  (forall label cur, I cur -> I (Backup.update_section label cur)) ->
  (forall sec row d total v,
     I sec -> nonempty_cell v = true ->
     P (make_record name sec (Backup.metric_of (row_label first_c row))
          d total v)) ->
  forall (rows : DataFrame) (st st' : option pystr * list OutputRecord),
    I st.1 ->
    Backup.process_rows name first_c col2date total_c st rows = Ok st' ->
    exists new, st'.2 = st.2 ++ new /\ Forall P new.
Proof.
  intros HI HP rows. induction rows as [|row rows IH]; intros st st' Hst; simpl.
  - intros [= <-]. exists []. by rewrite app_nil_r.
  - intros ([sec1 out1] & Hrow & Hrest)%bind_Ok_inv. destruct st as [cur records].
    destruct (process_row_made _ _ _ _ _ _ _ _ _ Hrow) as (-> & new1 & -> & H1).
    simpl in Hst. pose proof (HI (row_label first_c row) cur Hst) as Hsec.
    destruct (IH (Backup.update_section (row_label first_c row) cur,
                  records ++ new1) st' Hsec Hrest) as (new2 & E2 & H2).
    simpl in E2.
    exists (new1 ++ new2). split; [by rewrite E2, <- app_assoc|].
    apply Forall_app. split; [|done].
    eapply Forall_impl; [exact H1|].
    intros r (d & total & v & Hv & ->). by apply HP.
Qed.

Lemma normalize_file_made {FS : FileSystem}
    (I : option pystr -> Prop) (P : OutputRecord -> Prop)
    (path sheet : pystr) (t : Table) :
  I None ->
  (forall label cur, I cur -> I (Backup.update_section label cur)) ->
  (forall first_c sec row d total v,
     I sec -> nonempty_cell v = true ->
     P (make_record (path_name path) sec
          (Backup.metric_of (row_label first_c row)) d total v)) ->
  Backup.normalize_file path sheet = Ok t ->
  Forall P (rows t).
Proof.
  intros H0 HI HP (df & _ & Ht)%bind_Ok_inv.
  destruct (normalize_frame_rows _ _ _ Ht)
    as (first_c & cs & col2date & total_c & final & _ & Hrows).
  destruct (process_rows_made I P (path_name path) first_c col2date total_c
              HI (HP first_c) _ (None, []) (final, rows t) H0 Hrows)
    as (new & Hnew & Hall).
  simpl in Hnew. by subst new.
Qed.

Lemma nonempty_cell_raw (v : cell) :
  nonempty_cell v = true -> strip (str v) ≠ [].
Proof.
  unfold nonempty_cell. intros [_ H]%andb_prop. by apply bool_decide_eq_true in H.
Qed.

Lemma row_label_stripped (first_c : nat) row (l : pystr) :
  row_label first_c row = Some l -> l ≠ [] /\ strip l = l.
Proof.
  unfold row_label. intros E.
  pose proof (foldl_label_step_spec (take first_c row)) as H.
  rewrite E in H. destruct H as (c & s & _ & Hs & -> & _).
  split; [done|apply strip_idemp].
Qed.

End FileRecords.

(** X7. In every table [normalize_file] of the backup script returns,
    each record names the file ([path.name]), its [value_raw] is a trimmed
    text that is not empty, and its [value_num] and [is_percent] are what
    [parse_number] answers for that [value_raw]: the numeric fields can be
    recomputed from the raw text. *)
Theorem normalize_file_record_fields {R : Runtime} {FS : FileSystem}
    (path sheet : pystr) (t : Table) :
  Backup.normalize_file path sheet = Ok t ->
  Forall (fun r =>
            source_file r = path_name path /\
            value_raw r ≠ [] /\
            strip (value_raw r) = value_raw r /\
            (value_num r, is_percent r)
              = Backup.parse_number (CStr (value_raw r)))
         (rows t).
Proof.
  apply (normalize_file_made (fun _ => True)); [done..|].
  intros first_c sec row d total v _ Hv. simpl.
  split; [done|]. split; [by apply nonempty_cell_raw|].
  split; [apply strip_idemp|].
  by destruct (Backup.parse_number_str (strip (str v))).
Qed.

Lemma normalize_file_record_fields_sample :
  Forall (fun r =>
            source_file r = py "daily.csv" /\
            value_raw r ≠ [] /\
            strip (value_raw r) = value_raw r /\
            (value_num r, is_percent r)
              = Backup.parse_number (R := Sample.runtime) (CStr (value_raw r)))
         (rows Sample.daily_table).
Proof.
  by apply (normalize_file_record_fields (R := Sample.runtime)
              (FS := Sample.files) (py "daily.csv") (py "Daily")).
Defined.

Lemma section_values :
  map_Forall (fun _ v =>
                v ∈ [py "RESTAURANT"; py "BAR"; py "BANQUETING"; py "MICE";
                     py "INDIVIDUALS"; py "SHOP"; py "WALKIN"; py "EMPLOYEES"])
             SECTION_SYNONYMS.
Proof.
  apply map_Forall_to_list.
  set (entries := map_to_list SECTION_SYNONYMS). vm_compute in entries.
  subst entries.
  repeat (constructor; [refine (bool_decide_unpack _ _); by vm_compute|]).
  constructor.
Qed.

(** X8. In every table [normalize_file] of the backup script returns, the
    section of a record is null or one of the eight canonical names of the
    section table, never a raw label; and a metric label is a trimmed text,
    not empty, that is not a key of the section table once upper-cased. *)
Theorem normalize_file_section_metric {R : Runtime} {FS : FileSystem}
    (path sheet : pystr) (t : Table) :
  Backup.normalize_file path sheet = Ok t ->
  Forall (fun r =>
            section r ∈
              None :: (Some <$> [py "RESTAURANT"; py "BAR"; py "BANQUETING";
                                 py "MICE"; py "INDIVIDUALS"; py "SHOP";
                                 py "WALKIN"; py "EMPLOYEES"]) /\
            forall l, metric_label r = Some l ->
                      l ≠ [] /\ strip l = l /\
                      SECTION_SYNONYMS !! str_upper l = None)
         (rows t).
Proof.
  set (names := [py "RESTAURANT"; py "BAR"; py "BANQUETING"; py "MICE";
                 py "INDIVIDUALS"; py "SHOP"; py "WALKIN"; py "EMPLOYEES"]).
  apply (normalize_file_made (fun sec => sec ∈ None :: (Some <$> names))).
  - by left.
  - intros [l|] cur Hcur; unfold Backup.update_section; [|done].
    destruct (SECTION_SYNONYMS !! str_upper l) as [canonical|] eqn:E; [|done].
    apply elem_of_cons. right. apply list_elem_of_fmap.
    exists canonical. split; [done|]. by apply (section_values _ _ E).
  - intros first_c sec row d total v Hsec _.
    unfold make_record. cbn [section metric_label]. split; [done|].
    intros l Hl. destruct (row_label first_c row) as [l'|] eqn:Hlabel; [|done].
    unfold Backup.metric_of in Hl.
    destruct (SECTION_SYNONYMS !! str_upper l') eqn:E; [done|].
    injection Hl as <-.
    destruct (row_label_stripped _ _ _ Hlabel) as [? ?]. done.
Qed.

Lemma normalize_file_section_metric_sample :
  Forall (fun r =>
            section r ∈
              None :: (Some <$> [py "RESTAURANT"; py "BAR"; py "BANQUETING";
                                 py "MICE"; py "INDIVIDUALS"; py "SHOP";
                                 py "WALKIN"; py "EMPLOYEES"]) /\
            forall l, metric_label r = Some l ->
                      l ≠ [] /\ strip l = l /\
                      SECTION_SYNONYMS !! @str_upper Sample.runtime l = None)
         (rows Sample.daily_table).
Proof.
  by apply (normalize_file_section_metric (R := Sample.runtime)
              (FS := Sample.files) (py "daily.csv") (py "Daily")).
Defined.

(** ** Blank rows and the map of the date columns *)

Section BlankRows.
Context {R : Runtime}.
Implicit Types (row : Row) (col2date : list (nat * Timestamp)).

Lemma Forall_False_nil {A} (l : list A) : Forall (fun _ => False) l -> l = [].
Proof. by destruct 1. Qed.

Lemma blank_row_label (first_c : nat) row :
  Forall (fun v => nonempty_cell v = false) row -> row_label first_c row = None.
Proof.
  intros Hblank. unfold row_label.
  pose proof (foldl_label_step_spec (take first_c row)) as H.
  destruct (foldl label_step None (take first_c row)) as [l|]; [|done].
  destruct H as (c & s & Hc & Hs & _).
  apply lookup_take_Some in Hc as [Hc _].
  apply list_elem_of_lookup_2 in Hc.
  rewrite Forall_forall in Hblank. specialize (Hblank _ Hc).
  unfold nonempty_cell in Hblank. simpl in Hblank.
  by rewrite bool_decide_eq_true_2 in Hblank.
Qed.

Lemma blank_row_daily (name : pystr) (sec metric : option pystr) row col2date :
  Forall (fun v => nonempty_cell v = false) row ->
  daily_records name sec metric row col2date = [].
Proof.
  intros Hblank. apply Forall_False_nil, daily_records_Forall.
  intros c d v _ Hv He%emits_nonempty.
  apply list_elem_of_lookup_2 in Hv.
  rewrite Forall_forall in Hblank. specialize (Hblank _ Hv). congruence.
Qed.

Lemma blank_row_total (name : pystr) (sec metric : option pystr) row
    (total_c : Z) :
  Forall (fun v => nonempty_cell v = false) row ->
  total_records name sec metric row total_c = [].
Proof.
  intros Hblank.
  destruct (total_records_cases name sec metric row total_c)
    as [->|(tv & _ & Hv & Hne & _)]; [done|].
  apply list_elem_of_lookup_2 in Hv.
  rewrite Forall_forall in Hblank. specialize (Hblank _ Hv). congruence.
Qed.

Lemma dict_set_fresh {V} (c : nat) (d : V) (m : list (nat * V)) :
  c ∉ m.*1 -> Backup.dict_set c d m = m ++ [(c, d)].
Proof.
  induction m as [|[c' d'] m IH]; simpl; [done|].
  intros [Hne Hnotin]%not_elem_of_cons.
  destruct (Nat.eqb_spec c c'); [done|]. by rewrite IH.
Qed.

(** On columns that are all different, new to the map and inside the
    header row, the loop appends one item for each cell that parses. *)
Lemma fill_col2date_appends (df : DataFrame) (hdr : nat) (hrow : Row)
    (cs : list nat) (acc : list (nat * Timestamp)) :
  df !! hdr = Some hrow ->
  NoDup cs ->
  (forall c, c ∈ cs -> c ∉ acc.*1) ->
  Forall (fun c => (c < length hrow)%nat) cs ->
  Backup.fill_col2date df hdr cs acc =
    Ok (acc ++ omap (fun c => v ← hrow !! c; d ← Backup.parse_date v;
                              Some (c, ts_normalize d)) cs).
Proof.
  intros Hrow Hnd. revert acc.
  induction Hnd as [|c cs Hc Hnd IH]; intros acc Hfresh Hlen; simpl.
  - by rewrite app_nil_r.
  - apply Forall_cons in Hlen as [Hclen Hlen].
    destruct (lookup_lt_is_Some_2 hrow c Hclen) as [v Hv].
    unfold iat. rewrite Hrow, (iloc_Some _ _ _ Hv), bind_Ok, Hv. simpl.
    destruct (Backup.parse_date v) as [d|]; simpl.
    + rewrite dict_set_fresh by (apply Hfresh; by left).
      rewrite IH; [by rewrite <- app_assoc| |done].
      intros c' Hc'. rewrite fmap_app. simpl.
      intros [Hin|Heq%list_elem_of_singleton]%elem_of_app; [|by subst c'].
      apply (Hfresh c'); [by right|done].
    + apply IH; [|done]. intros c' Hc'. apply Hfresh. by right.
Qed.

End BlankRows.

(** X9. A row in which no cell holds a value (every cell is [None], NaN or
    a blank text) changes nothing: the row loop of the backup script
    appends no record for it and leaves the current section as it is. *)
Theorem process_row_blank {R : Runtime} (name : pystr) (first_c : nat)
    (col2date : list (nat * Timestamp)) (total_c : Z)
    (cur : option pystr) (records : list OutputRecord) (row : Row) :
  row_in_range first_c col2date row = true ->
  -1 <= total_c ->
  Forall (fun v => nonempty_cell v = false) row ->
  Backup.process_row name first_c col2date total_c (cur, records) row
    = Ok (cur, records).
Proof.
  intros Hrange Htot Hblank. rewrite process_row_ok by done. cbv zeta.
  rewrite blank_row_label, blank_row_daily, blank_row_total by done.
  by rewrite !app_nil_r.
Qed.

Lemma process_row_blank_sample :
  Backup.process_row (R := Sample.runtime) (py "daily.csv") 2 Sample.dates 7
    (Some (py "BAR"), []) (CNaN :: Sample.txt "  " :: replicate 6 CNone)
  = Ok (Some (py "BAR"), []).
Proof.
  apply (process_row_blank (R := Sample.runtime)); [by vm_compute|lia|].
  repeat constructor.
Defined.

(** X10. The map of the date columns that [normalize_file] of the backup
    script builds holds, for the columns of the date span in their order,
    exactly the columns whose header cell [parse_date] can read, each with
    the normalised date it read; the other columns of the span are left
    out. *)
Theorem fill_col2date_span {R : Runtime} (df : DataFrame) (hdr : nat)
    (hrow : Row) (first n : nat) :
  df !! hdr = Some hrow ->
  (first + n <= length hrow)%nat ->
  Backup.fill_col2date df hdr (seq first n) [] =
    Ok (omap (fun c => v ← hrow !! c; d ← Backup.parse_date v;
                       Some (c, ts_normalize d)) (seq first n)).
Proof.
  intros Hrow Hlen.
  rewrite (fill_col2date_appends df hdr hrow); [done..| | |].
  - apply NoDup_seq.
  - intros c _. by intros ?%elem_of_nil.
  - apply Forall_forall. intros c Hc%elem_of_seq. lia.
Qed.

Lemma fill_col2date_span_sample :
  Backup.fill_col2date (R := Sample.runtime) Sample.daily 1 (seq 2 5) []
  = Ok Sample.dates.
Proof.
  refine (fill_col2date_span (R := Sample.runtime) Sample.daily 1
            (CNaN :: CNaN :: Sample.txt "1/1/2025" :: Sample.txt "2/1/2025"
             :: Sample.txt "3/1/2025" :: Sample.txt "4/1/2025"
             :: Sample.txt "5/1/2025" :: Sample.txt " Total " :: nil)
            2 5 eq_refl _).
  simpl. lia.
Defined.

(** ** Outcomes of [normalize_file] *)

Section HeaderPresence.
Context {R : Runtime}.
Variable is_date_like : cell -> bool.
Variable threshold : nat.
Variable is_total_caption : cell -> bool.
Hypothesis threshold_pos : (0 < threshold)%nat.

Lemma scan_header_none (df : DataFrame) :
  (forall r row, df !! r = Some row ->
                 (count_date_like is_date_like row < threshold)%nat) ->
  scan_header is_date_like threshold is_total_caption 0 df = (-1, -1, -1, -1).
Proof.
  intros Hnone.
  pose proof (scan_header_spec is_date_like threshold is_total_caption
                threshold_pos [] df ltac:(by intros [|?] ?)) as Hspec.
  simpl in Hspec.
  destruct Hspec as [|r row first last tot Hrow Hth]; [done|].
  specialize (Hnone r row Hrow). lia.
Qed.

Lemma scan_header_some (df : DataFrame) (r : nat) (row : Row) :
  df !! r = Some row ->
  (threshold <= count_date_like is_date_like row)%nat ->
  0 <= (scan_header is_date_like threshold is_total_caption 0 df).1.1.1.
Proof.
  intros Hrow Hth.
  pose proof (scan_header_spec is_date_like threshold is_total_caption
                threshold_pos [] df ltac:(by intros [|?] ?)) as Hspec.
  simpl in Hspec.
  destruct Hspec as [Hnone|r' row' first last tot]; [|simpl; lia].
  specialize (Hnone r row Hrow). lia.
Qed.

End HeaderPresence.

Lemma normalize_frame_columns {R : Runtime} (name : pystr) (df : DataFrame)
    (t : Table) :
  Backup.normalize_frame name df = Ok t -> columns t = COLS.
Proof.
  unfold Backup.normalize_frame.
  destruct (Backup.find_date_header_row df) as [[[hdr first_c] last_c] total_c].
  destruct (hdr <? 0); [done|].
  intros (col2date & _ & (st & _ & [= <-])%bind_Ok_inv)%bind_Ok_inv. done.
Qed.

(** X11. A file that can be read but whose grid has no row with enough
    date-like cells (3 for the backup script, 5 for the other) makes
    [normalize_file] raise the header-not-found error, which names the file
    by [path.name]; no table is returned. *)
Theorem normalize_file_header_not_found {R : Runtime} {FS : FileSystem}
    (path sheet : pystr) (df : DataFrame) :
  read_frame path sheet = Ok df ->
  ((forall r row, df !! r = Some row ->
                  (count_date_like Backup.is_date_like row < 3)%nat) ->
   Backup.normalize_file path sheet = Raise (HeaderNotFound (path_name path)))
  /\
  ((forall r row, df !! r = Some row ->
                  (count_date_like Normalize.is_date_like row < 5)%nat) ->
   Normalize.normalize_file path sheet
   = Raise (HeaderNotFound (path_name path))).
Proof.
  intros Hread. split; intros Hnone.
  - unfold Backup.normalize_file, Backup.normalize_frame,
      Backup.find_date_header_row.
    rewrite Hread, bind_Ok.
    by rewrite (scan_header_none _ 3 _ ltac:(lia) df Hnone).
  - unfold Normalize.normalize_file, Normalize.find_date_header_row.
    rewrite Hread, bind_Ok.
    by rewrite (scan_header_none _ 5 _ ltac:(lia) df Hnone).
Qed.

Lemma normalize_file_header_not_found_sample :
  Backup.normalize_file (R := Sample.runtime)
    (FS := memory_files [(py "notes.csv", take 1 Sample.daily)])
    (py "notes.csv") (py "Daily")
  = Raise (HeaderNotFound (py "notes.csv"))
  /\
  Normalize.normalize_file (R := Sample.runtime)
    (FS := memory_files [(py "notes.csv", take 1 Sample.daily)])
    (py "notes.csv") (py "Daily")
  = Raise (HeaderNotFound (py "notes.csv")).
Proof.
  destruct (normalize_file_header_not_found (R := Sample.runtime)
              (FS := memory_files [(py "notes.csv", take 1 Sample.daily)])
              (py "notes.csv") (py "Daily") (take 1 Sample.daily) eq_refl)
    as [HB HN].
  split; [apply HB|apply HN]; intros [|r] row [= <-]; vm_compute; lia.
Defined.

(** X12. A file that can be read, whose grid is rectangular and has a row
    with at least 3 date-like cells, always gets a table from
    [normalize_file] of the backup script, with the eight canonical
    columns: no cell of such a grid can make the function fail. *)
Theorem normalize_file_succeeds {R : Runtime} {FS : FileSystem}
    (path sheet : pystr) (df : DataFrame) (r : nat) (row : Row) :
  read_frame path sheet = Ok df ->
  rectangular df ->
  df !! r = Some row ->
  (3 <= count_date_like Backup.is_date_like row)%nat ->
  exists t, Backup.normalize_file path sheet = Ok t /\ columns t = COLS.
Proof.
  intros Hread Hrect Hrow Hth. unfold Backup.normalize_file.
  rewrite Hread, bind_Ok.
  destruct (normalize_frame_ok (path_name path) df Hrect) as [t Ht].
  { exact (scan_header_some Backup.is_date_like 3 Backup.is_total_caption
             ltac:(lia) df r row Hrow Hth). }
  exists t. split; [done|]. by eapply normalize_frame_columns.
Qed.

Lemma normalize_file_succeeds_sample :
  exists t,
    Backup.normalize_file (R := Sample.runtime) (FS := Sample.files)
      (py "daily.csv") (py "Daily") = Ok t /\ columns t = COLS.
Proof.
  apply (normalize_file_succeeds (R := Sample.runtime) (FS := Sample.files)
           (py "daily.csv") (py "Daily") Sample.daily 1
           (Sample.daily !!! 1%nat)); [reflexivity| |reflexivity|].
  - exists 8%nat. repeat constructor.
  - vm_compute. lia.
Defined.

(** ** [main] over several files *)

Section MainFiles.
Context {R : Runtime} {FS : FileSystem}.

Lemma collect_frames_raise (sheet : pystr) (done : list pystr) (f : pystr)
    (rest : list pystr) (frames : list Table) (e : exn) :
  Forall (fun g => exists t, Backup.normalize_file g sheet = Ok t) done ->
  Backup.normalize_file f sheet = Raise e ->
  Backup.collect_frames sheet (done ++ f :: rest) frames = Raise e.
Proof.
  intros Hdone Hf. revert frames.
  induction Hdone as [|g done [t Hg] _ IH]; intros frames; simpl.
  - by rewrite Hf.
  - rewrite Hg, bind_Ok. apply IH.
Qed.

End MainFiles.

(** X13. When [main] of the backup script ends normally, the command line
    named at least one file, every file gave a table, and the master table
    has the eight canonical columns and the records of those tables stacked
    in the order of the files on the command line: nothing is dropped,
    merged or reordered. *)
Theorem main_stacks_files {R : Runtime} {FS : FileSystem}
    (cl : CommandLine) (master : Table) :
  Backup.main cl = Ok master ->
  cli_files cl ≠ [] /\
  columns master = COLS /\
  exists tables,
    Forall2 (fun f t =>
               Backup.normalize_file f (default (py "Daily") (cli_sheet cl))
               = Ok t)
            (cli_files cl) tables /\
    rows master = concat (map rows tables).
Proof.
  unfold Backup.main.
  intros (args & Hargs & (frames & Hframes & Hagg)%bind_Ok_inv)%bind_Ok_inv.
  unfold parse_args in Hargs.
  destruct (cli_out cl) as [out|]; [|done].
  destruct (cli_files cl) as [|f files] eqn:Hfiles; [done|].
  injection Hargs as <-.
  rewrite aggregate_stacks in Hagg. injection Hagg as <-.
  split; [done|]. split; [done|].
  destruct (collect_frames_each _ _ _ _ Hframes) as (tables & -> & Hall).
  exists tables. split; [exact Hall|done].
Qed.

Lemma main_stacks_files_sample :
  let cl := {| cli_out := Some (py "master.csv"); cli_sheet := None;
               cli_peek := false;
               cli_files := [py "daily.csv"; py "daily.csv"] |} in
  let master := {| columns := COLS;
                   rows := rows Sample.daily_table ++ rows Sample.daily_table |} in
  cli_files cl ≠ [] /\
  columns master = COLS /\
  exists tables,
    Forall2 (fun f t =>
               Backup.normalize_file (R := Sample.runtime) (FS := Sample.files)
                 f (default (py "Daily") (cli_sheet cl)) = Ok t)
            (cli_files cl) tables /\
    rows master = concat (map rows tables).
Proof.
  intros cl master.
  refine (main_stacks_files (R := Sample.runtime) (FS := Sample.files)
            cl master _).
  reflexivity.
Defined.

(** X14. [main] of the backup script stops at the first file that fails:
    when the files named before it all give a table and [normalize_file]
    raises for it, [main] ends with that same exception, whatever files
    follow; no master table is written for the files that were read. *)
Theorem main_fails_fast {R : Runtime} {FS : FileSystem}
    (cl : CommandLine) (args : Args) (done : list pystr) (f : pystr)
    (rest : list pystr) (e : exn) :
  parse_args cl = Ok args ->
  args_files args = done ++ f :: rest ->
  Forall (fun g => exists t, Backup.normalize_file g (args_sheet args) = Ok t)
         done ->
  Backup.normalize_file f (args_sheet args) = Raise e ->
  Backup.main cl = Raise e.
Proof.
  intros Hargs Hfiles Hdone Hf. unfold Backup.main.
  rewrite Hargs, bind_Ok, Hfiles.
  by rewrite (collect_frames_raise _ _ _ _ _ _ Hdone Hf).
Qed.

Lemma main_fails_fast_sample :
  Backup.main (R := Sample.runtime) (FS := Sample.files)
    {| cli_out := Some (py "master.csv"); cli_sheet := None;
       cli_peek := false;
       cli_files := [py "daily.csv"; py "notes.txt"; py "daily.csv"] |}
  = Raise (UnsupportedFormat (py ".txt")).
Proof.
  apply (main_fails_fast (R := Sample.runtime) (FS := Sample.files) _
           {| args_out := py "master.csv"; args_sheet := py "Daily";
              args_peek := false;
              args_files := [py "daily.csv"; py "notes.txt"; py "daily.csv"] |}
           [py "daily.csv"] (py "notes.txt") [py "daily.csv"]);
    [reflexivity|reflexivity| |reflexivity].
  constructor; [|constructor]. exists Sample.daily_table. reflexivity.
Defined.

(** ** Lines above the header *)

Section AboveHeader.
Context {R : Runtime}.
Variable is_date_like : cell -> bool.
Variable threshold : nat.
Variable is_total_caption : cell -> bool.

(** Starting the count of the rows at [r] moves the row index of a found
    header by [r] and changes nothing else. *)
Lemma scan_header_shift (r : nat) (rows : DataFrame) :
  scan_header is_date_like threshold is_total_caption r rows =
    let '(hdr, first_c, last_c, total_c) :=
      scan_header is_date_like threshold is_total_caption 0 rows in
    if hdr <? 0 then (hdr, first_c, last_c, total_c)
    else (hdr + Z.of_nat r, first_c, last_c, total_c).
Proof.
  revert r. induction rows as [|row rows IH]; intros r; simpl; [done|].
  destruct (threshold <=? _)%nat; [done|].
  rewrite (IH (S r)), (IH 1%nat).
  destruct (scan_header _ _ _ 0 rows) as [[[hdr first_c] last_c] total_c].
  destruct (Z.ltb_spec hdr 0) as [Hneg|Hpos];
    [by rewrite (proj2 (Z.ltb_lt _ _) Hneg)|].
  destruct (Z.ltb_spec (hdr + Z.of_nat 1) 0); [lia|].
  by replace (hdr + Z.of_nat 1 + Z.of_nat r) with (hdr + Z.of_nat (S r)) by lia.
Qed.

Lemma scan_header_skip (pre rows : DataFrame) (r : nat) :
  Forall (fun row => (count_date_like is_date_like row < threshold)%nat) pre ->
  scan_header is_date_like threshold is_total_caption r (pre ++ rows)
  = scan_header is_date_like threshold is_total_caption (r + length pre) rows.
Proof.
  intros Hpre. revert r.
  induction Hpre as [|row pre Hrow _ IH]; intros r; simpl.
  - by rewrite Nat.add_0_r.
  - rewrite date_cols_from_length.
    destruct (Nat.leb_spec threshold (count_date_like is_date_like row)); [lia|].
    rewrite IH. f_equal. lia.
Qed.

End AboveHeader.

Lemma fill_col2date_above {R : Runtime} (pre df : DataFrame) (hdr : nat)
    (cs : list nat) (acc : list (nat * Timestamp)) :
  Backup.fill_col2date (pre ++ df) (length pre + hdr) cs acc
  = Backup.fill_col2date df hdr cs acc.
Proof.
  revert acc. induction cs as [|c cs IH]; intros acc; simpl; [done|].
  unfold iat. rewrite lookup_app_r by lia.
  replace (length pre + hdr - length pre)%nat with hdr by lia.
  destruct (df !! hdr) as [hrow|]; [|done].
  destruct (iloc hrow c) as [v|]; [|done]. simpl.
  destruct (Backup.parse_date v); apply IH.
Qed.

(** X15. Lines above the date header contribute nothing: putting, on top
    of a frame, rows that have fewer than 3 date-like cells each leaves the
    result of the backup script's [normalize_file] body as it is, the table
    as well as the error. *)
Theorem normalize_frame_above_header {R : Runtime} (name : pystr)
    (pre df : DataFrame) :
  Forall (fun row => (count_date_like Backup.is_date_like row < 3)%nat) pre ->
  Backup.normalize_frame name (pre ++ df) = Backup.normalize_frame name df.
Proof.
  intros Hpre. unfold Backup.normalize_frame, Backup.find_date_header_row.
  rewrite (scan_header_skip _ _ _ pre df 0 Hpre), scan_header_shift. simpl.
  destruct (scan_header _ _ _ 0 df) as [[[hdr first_c] last_c] total_c].
  destruct (Z.ltb_spec hdr 0) as [Hneg|Hpos].
  - by rewrite (proj2 (Z.ltb_lt _ _) Hneg).
  - destruct (Z.ltb_spec (hdr + Z.of_nat (length pre)) 0); [lia|].
    replace (Z.to_nat (hdr + Z.of_nat (length pre)))
      with (length pre + Z.to_nat hdr)%nat by lia.
    rewrite fill_col2date_above.
    replace (S (length pre + Z.to_nat hdr))
      with (length pre + S (Z.to_nat hdr))%nat by lia.
    by rewrite drop_app_add.
Qed.

Lemma normalize_frame_above_header_sample :
  Backup.normalize_frame (R := Sample.runtime) (py "daily.csv")
    (take 1 Sample.daily ++ drop 1 Sample.daily)
  = Backup.normalize_frame (py "daily.csv") (drop 1 Sample.daily).
Proof.
  apply (normalize_frame_above_header (R := Sample.runtime)).
  constructor; [vm_compute; lia|constructor].
Defined.

(** X16. A text cell that the backup script counts as date-like and that
    is not in ISO form is also a date for [parse_date], with a year
    between 1900 and 2100: such a header cell is never left out of the map
    of the date columns. *)
Theorem date_like_text_parses {R : Runtime} (s : pystr) :
  ISO_RE (strip s) = false ->
  Backup.is_date_like (CStr s) = true ->
  exists d, Backup.parse_date (CStr s) = Some d /\ 1900 <= ts_year d <= 2100.
Proof.
  unfold Backup.is_date_like, Backup.parse_date. cbn [str]. intros ->.
  destruct (bool_decide (strip s = [])); [done|].
  destruct (to_datetime true (strip s)) as [d|]; [|done].
  intros [H1%Z.leb_le H2%Z.leb_le]%andb_prop. by exists d.
Qed.

Lemma date_like_text_parses_sample :
  exists d, Backup.parse_date (R := Sample.runtime) (Sample.txt " 3/1/2025 ")
            = Some d /\ 1900 <= ts_year d <= 2100.
Proof.
  apply (date_like_text_parses (R := Sample.runtime) (py " 3/1/2025 "));
    by vm_compute.
Defined.

(** ** The sheet name and CSV files *)

(** X17. For a path whose suffix is [.csv] once lower-cased, the sheet
    name plays no part: [normalize_file] gives the same result for any two
    sheet names, in both scripts. *)
Theorem normalize_file_csv_sheet {R : Runtime} {FS : FileSystem}
    (path sheet1 sheet2 : pystr) :
  str_lower (path_suffix path) = py ".csv" ->
  Backup.normalize_file path sheet1 = Backup.normalize_file path sheet2 /\
  Normalize.normalize_file path sheet1 = Normalize.normalize_file path sheet2.
Proof.
  intros Hcsv.
  assert (forall sheet, read_frame path sheet = read_csv path) as Hread.
  { intros sheet. unfold read_frame. by rewrite Hcsv. }
  unfold Backup.normalize_file, Normalize.normalize_file.
  by rewrite !Hread.
Qed.

Lemma normalize_file_csv_sheet_sample :
  Backup.normalize_file (R := Sample.runtime) (FS := Sample.files)
    (py "daily.csv") (py "Daily")
  = Backup.normalize_file (FS := Sample.files) (py "daily.csv") (py "Hoja1")
  /\
  Normalize.normalize_file (R := Sample.runtime) (FS := Sample.files)
    (py "daily.csv") (py "Daily")
  = Normalize.normalize_file (FS := Sample.files) (py "daily.csv") (py "Hoja1").
Proof.
  apply (normalize_file_csv_sheet (R := Sample.runtime) (FS := Sample.files)
           (py "daily.csv") (py "Daily") (py "Hoja1")).
  reflexivity.
Defined.

(** ** How many records a file gives *)

Section RecordCount.
Context {R : Runtime}.
Implicit Types (row : Row) (col2date : list (nat * Timestamp)).

Lemma dict_set_length {V} (c : nat) (d : V) (m : list (nat * V)) :
  (length (Backup.dict_set c d m) <= S (length m))%nat.
Proof.
  induction m as [|[c' d'] m IH]; simpl; [lia|].
  destruct (Nat.eqb c c'); simpl; lia.
Qed.

Lemma fill_col2date_length (df : DataFrame) (hdr : nat) (cs : list nat)
    (acc col2date : list (nat * Timestamp)) :
  Backup.fill_col2date df hdr cs acc = Ok col2date ->
  (length col2date <= length acc + length cs)%nat.
Proof.
  revert acc. induction cs as [|c cs IH]; intros acc; simpl.
  - intros [= <-]. lia.
  - intros (v & _ & Hrest)%bind_Ok_inv.
    destruct (Backup.parse_date v) as [d|].
    + apply IH in Hrest.
      pose proof (dict_set_length c (ts_normalize d) acc). lia.
    + apply IH in Hrest. lia.
Qed.

Lemma daily_records_length_le (name : pystr) (sec metric : option pystr)
    row col2date :
  (length (daily_records name sec metric row col2date) <= length col2date)%nat.
Proof.
  rewrite daily_records_length.
  induction col2date as [|cd col2date IH]; simpl; [lia|].
  destruct (match row !! cd.1 with Some v => emits v | None => false end);
    simpl; lia.
Qed.

Lemma process_row_count (name : pystr) (first_c : nat) col2date (total_c : Z)
    (st st' : option pystr * list OutputRecord) row :
  Backup.process_row name first_c col2date total_c st row = Ok st' ->
  (length st'.2 <= length st.2 + S (length col2date))%nat.
Proof.
  destruct st as [cur records]. unfold Backup.process_row.
  rewrite find_label_char. destruct (_ <=? _)%nat; [|done].
  rewrite bind_Ok, emit_daily_char. destruct (forallb _ _); [|done].
  rewrite bind_Ok. intros (out & Hout & [= <-])%bind_Ok_inv. simpl.
  pose proof (daily_records_length_le name
                (Backup.update_section (row_label first_c row) cur)
                (Backup.metric_of (row_label first_c row)) row col2date).
  destruct (emit_total_inv _ _ _ _ _ _ _ Hout) as [->|[tv ->]];
    rewrite ?length_app; simpl; lia.
Qed.

Lemma process_rows_count (name : pystr) (first_c : nat) col2date (total_c : Z)
    (st st' : option pystr * list OutputRecord) (rows : DataFrame) :
  Backup.process_rows name first_c col2date total_c st rows = Ok st' ->
  (length st'.2 <= length st.2 + length rows * S (length col2date))%nat.
Proof.
  revert st. induction rows as [|row rows IH]; intros st; simpl.
  - intros [= <-]. lia.
  - intros (st1 & Hrow & Hrest)%bind_Ok_inv.
    apply process_row_count in Hrow. apply IH in Hrest. lia.
Qed.

End RecordCount.

(** X18. A table [normalize_file] of the backup script returns for a frame
    has at most one record per row below the header and column of the date
    span, plus one per row for the totals: with the header in row [hdr] and
    the span from [first_c] to [last_c], no more than
    [(len(df) - hdr - 1) * (last_c - first_c + 2)] records. *)
Theorem normalize_frame_record_count {R : Runtime} (name : pystr)
    (df : DataFrame) (t : Table) :
  Backup.normalize_frame name df = Ok t ->
  let hdr := Z.to_nat (Backup.find_date_header_row df).1.1.1 in
  let first_c := Z.to_nat (Backup.find_date_header_row df).1.1.2 in
  let last_c := Z.to_nat (Backup.find_date_header_row df).1.2 in
  (length (rows t) <= (length df - S hdr) * (last_c + 2 - first_c))%nat.
Proof.
  unfold Backup.normalize_frame.
  destruct (Backup.find_date_header_row df)
    as [[[hdr first_c] last_c] total_c] eqn:Hfind.
  destruct (Z.ltb_spec hdr 0); [done|].
  intros (col2date & Hfill & (st & Hrows & [= <-])%bind_Ok_inv)%bind_Ok_inv.
  cbn [fst snd rows reindex from_records].
  apply fill_col2date_length in Hfill. apply process_rows_count in Hrows.
  rewrite length_drop in Hrows. rewrite length_seq in Hfill. simpl in *.
  destruct (header_found df hdr first_c last_c total_c Hfind)
    as (r & f & l & hrow & -> & -> & -> & _ & Hfl & _); [done|].
  rewrite !Nat2Z.id in *.
  replace (Z.to_nat (Z.of_nat l + 1) - f)%nat with (l + 1 - f)%nat in Hfill by lia.
  etrans; [exact Hrows|]. apply Nat.mul_le_mono_l. lia.
Qed.

Lemma normalize_frame_record_count_sample :
  (length (rows Sample.daily_table) <= (5 - 2) * (6 + 2 - 2))%nat.
Proof.
  exact (normalize_frame_record_count (R := Sample.runtime) (py "daily.csv")
           Sample.daily Sample.daily_table eq_refl).
Defined.

(** ** The date pattern of normalize_daily_reports.py *)

Section DatePattern.
Context {R : Runtime}.

Lemma at_end_spaces (s : pystr) :
  at_end s = true -> Forall (fun c => is_space c = true) s.
Proof.
  destruct s as [|c [|c' s]]; simpl; try done.
  intros ->%N.eqb_eq. by repeat constructor.
Qed.

Lemma spaces_star_inv (k : pystr -> bool) (s : pystr) :
  spaces_star k s = true ->
  exists pre rest, s = pre ++ rest /\
                   Forall (fun c => is_space c = true) pre /\ k rest = true.
Proof.
  induction s as [|c s IH]; simpl.
  - rewrite orb_false_r. intros Hk. by exists [], [].
  - intros [Hk|[Hc Hs]%andb_prop]%orb_prop.
    + by exists [], (c :: s).
    + destruct (IH Hs) as (pre & rest & -> & Hpre & Hk).
      exists (c :: pre), rest. split; [done|]. split; [by constructor|done].
Qed.

Lemma rep_digits_inv (lo hi : nat) (k : pystr -> bool) (s : pystr) :
  rep_digits lo hi k s = true ->
  exists ds rest, s = ds ++ rest /\
                  (lo <= length ds <= hi)%nat /\ k rest = true.
Proof.
  revert lo s. induction hi as [|hi IH]; intros lo s; simpl.
  - intros [Hlo%Nat.eqb_eq Hk]%andb_prop. exists [], s. simpl.
    split; [done|]. split; [lia|done].
  - intros [H|[Hlo%Nat.eqb_eq Hk]%andb_prop]%orb_prop.
    + destruct s as [|c s]; [done|].
      apply andb_prop in H as [_ H].
      destruct (IH _ _ H) as (ds & rest & -> & Hlen & Hk).
      exists (c :: ds), rest. simpl. split; [done|]. split; [lia|done].
    + exists [], s. simpl. split; [done|]. split; [lia|done].
Qed.

Lemma one_of_inv (cs : list N) (k : pystr -> bool) (s : pystr) :
  one_of cs k s = true -> exists c rest, s = c :: rest /\ k rest = true.
Proof.
  destruct s as [|c s]; simpl; [done|].
  intros [_ Hk]%andb_prop. by exists c, s.
Qed.

(** A trimmed text that matches [DATE_RE] is two runs of one or two
    digits and a run of two to four, with one separator between them. *)
Lemma DATE_RE_length (s : pystr) :
  DATE_RE (strip s) = true -> (6 <= length (strip s) <= 10)%nat.
Proof.
  unfold DATE_RE. intros H.
  apply spaces_star_inv in H as (pre & r0 & E0 & Hpre & H).
  apply rep_digits_inv in H as (d1 & r1 & -> & Hd1 & H).
  apply one_of_inv in H as (c1 & r2 & -> & H).
  apply rep_digits_inv in H as (d2 & r3 & -> & Hd2 & H).
  apply one_of_inv in H as (c2 & r4 & -> & H).
  apply rep_digits_inv in H as (d3 & r5 & -> & Hd3 & H).
  apply spaces_star_inv in H as (post & r6 & -> & Hpost & H).
  apply at_end_spaces in H.
  assert (pre = []) as ->.
  { destruct pre as [|c pre]; [done|].
    apply Forall_cons in Hpre as [Hc _].
    pose proof (lstrip_head (strip s) c) as Hhead.
    rewrite lstrip_strip, E0 in Hhead. specialize (Hhead eq_refl). congruence. }
  assert (post ++ r6 = []) as Hnil.
  { destruct (post ++ r6) as [|x tl _] eqn:E using rev_ind; [done|].
    assert (is_space x = true) as Hx.
    { assert (Forall (fun c => is_space c = true) (post ++ r6)) as Hall
        by by apply Forall_app.
      rewrite E in Hall. apply Forall_app in Hall as [_ Hall].
      by apply Forall_cons in Hall as [? _]. }
    assert (strip s = (d1 ++ c1 :: d2 ++ c2 :: d3 ++ tl) ++ [x]) as E1.
    { rewrite E0, ?E. repeat (simpl; rewrite <- app_assoc). done. }
    pose proof (strip_last s x) as Hlast.
    rewrite E1, last_snoc in Hlast. specialize (Hlast eq_refl). congruence. }
  rewrite E0. simpl. rewrite !length_app. simpl. rewrite !length_app. simpl.
  rewrite length_app, Hnil. simpl. lia.
Qed.

End DatePattern.

(** X19. In [normalize_daily_reports.py] a cell is date-like only if it is
    neither [None] nor NaN and its text, trimmed, has between 6 and 10
    characters: a cell that shows a date with a time of day, or a date
    object printed in ISO form with its time, is never counted for the
    header. *)
Theorem normalize_date_like_length {R : Runtime} (x : cell) :
  Normalize.is_date_like x = true ->
  is_missing x = false /\ (6 <= length (strip (str x)) <= 10)%nat.
Proof.
  intros H. split; [by destruct x|].
  apply DATE_RE_length. by destruct x.
Qed.

Lemma normalize_date_like_length_sample :
  is_missing (R := Sample.runtime) (Sample.txt " 31-12-2025 ") = false /\
  (6 <= length (strip (str (Sample.txt " 31-12-2025 "))) <= 10)%nat.
Proof.
  apply (normalize_date_like_length (R := Sample.runtime)). reflexivity.
Defined.
